(** * pigpio_sht4x: the SHT4x temperature / humidity driver

    A shallow embedding of [src/pigpio_sht4x/__init__.py]: the CRC-8
    engine ([make_crc_table], [CRC_TABLE], [crc8_fast]), the frame decoder
    ([parse_sht4x]) and the sensor session ([SHT4x]: [__init__], [reset],
    [read], [measurements], [close]) over the pigpio transport.

    Python integers are [Z] with the bit operations of [Z]; [bytes] are
    lists of integers, well formed when every element is in 0..255; Python
    floats are IEEE binary64, here the primitive floats; exceptions are a
    sum type, and the methods that talk to the bus run in a state and
    exception monad over the transport, which records every call made. *)

From Stdlib Require Import ZArith List Lia Bool String Ascii.
From Stdlib Require Import DecimalString HexadecimalString.
From Stdlib Require Import PrimFloat Uint63.
Import ListNotations.

Local Open Scope Z_scope.

(* ================================================================= *)
(** ** Python values, exceptions and built-ins *)

Module Py.

(** The exceptions this module can raise or let through. *)
Inductive exn : Type :=
| RuntimeError (msg : string)
| IndexError
| UnicodeEncodeError
| PigpioError (code : Z).

Inductive result (A : Type) : Type :=
| Ok (a : A)
| Raise (e : exn).
Arguments Ok {A} a.
Arguments Raise {A} e.

Definition is_ok {A} (r : result A) : bool :=
  match r with Ok _ => true | Raise _ => false end.

(** [range(n)] *)
Definition range (n : nat) : list Z := map Z.of_nat (seq 0 n).

(** [l[i]] on a list or a bytes object: a negative index counts from
    the end, anything outside raises [IndexError]. *)
Definition getitem {A} (l : list A) (i : Z) : result A :=
  let n := Z.of_nat (List.length l) in
  let j := if i <? 0 then i + n else i in
  if (0 <=? j) && (j <? n)
  then match nth_error l (Z.to_nat j) with
       | Some x => Ok x
       | None => Raise IndexError
       end
  else Raise IndexError.

(** [l[a:b]] for literal bounds [0 <= a <= b]. *)
Definition slice {A} (l : list A) (a b : nat) : list A :=
  firstn (b - a) (skipn a l).

(** [int.from_bytes(b, "big")] *)
Definition int_from_bytes_big (b : list Z) : Z :=
  fold_left (fun acc x => acc * 256 + x) b 0.

(** [hex(n)] *)
Definition hex (n : Z) : string :=
  if n <? 0
  then ("-0x" ++ HexadecimalString.NilZero.string_of_uint (N.to_hex_uint (Z.to_N (- n))))%string
  else ("0x" ++ HexadecimalString.NilZero.string_of_uint (N.to_hex_uint (Z.to_N n)))%string.

(** [str(n)], as an f-string formats an integer. *)
Definition str (n : Z) : string :=
  DecimalString.NilZero.string_of_int (Z.to_int n).

(** The conversion of an integer operand of a float operation; exact
    below 2^53, and the decoder only converts 16-bit words. *)
Definition float_of_int (n : Z) : float := of_uint63 (Uint63.of_Z n).

(** What [i2c_read_device] hands back as data: a [bytearray], or a
    [str] (pigpio returns the empty string when the read failed). A
    string is a list of code points. *)
Inductive data : Type :=
| Bytes (b : list Z)
| Str (s : list Z).

(** [s.encode("latin1")] *)
Definition encode_latin1 (s : list Z) : result (list Z) :=
  if forallb (fun c => c <? 256) s then Ok s else Raise UnicodeEncodeError.

End Py.
Import Py.

(** A byte value, and a well-formed [bytes] object. *)
Definition is_byte (b : Z) : Prop := 0 <= b < 256.
Definition is_bytes (l : list Z) : Prop := Forall is_byte l.

(* ================================================================= *)
(** ** CRC engine *)

(** One round of the inner loop of [make_crc_table]:
<<
    if crc & 0x80:
        crc = ((crc << 1) & 0xFF) ^ poly
    else:
        crc = (crc << 1) & 0xFF
>> *)
Definition crc_round (poly crc : Z) : Z :=
  if negb (Z.land crc 0x80 =? 0)
  then Z.lxor (Z.land (Z.shiftl crc 1) 0xFF) poly
  else Z.land (Z.shiftl crc 1) 0xFF.

(** The body of the outer loop: [crc = byte], then eight rounds. *)
Definition crc_of_byte (poly byte : Z) : Z :=
  fold_left (fun crc _ => crc_round poly crc) (range 8) byte.

(** [make_crc_table(poly)] *)
Definition make_crc_table (poly : Z) : list Z :=
  fold_left (fun table byte => table ++ [crc_of_byte poly byte]) (range 256) [].

(** [CRC_TABLE = make_crc_table()], with the default [poly=0x31]. *)
Definition CRC_TABLE : list Z := make_crc_table 0x31.

(** [crc8_fast(data, init)] *)
Fixpoint crc8_fast (data : list Z) (init : Z) : result Z :=
  match data with
  | [] => Ok init
  | byte :: rest =>
      match getitem CRC_TABLE (Z.lxor init byte) with
      | Ok crc => crc8_fast rest crc
      | Raise e => Raise e
      end
  end.

(** The table lookup of one step of [crc8_fast], as a function of the
    running value and the next byte. *)
Definition crc_step (crc byte : Z) : Z := crc_of_byte 0x31 (Z.lxor crc byte).

(** The default [init=0xFF] of [crc8_fast]. *)
Definition crc8_init : Z := 0xFF.

(* ----------------------------------------------------------------- *)
(** *** The CRC engine in the words of the specification *)

(** One iteration as the specification words it: the high bit is bit 7;
    when set, shift left, mask to 8 bits and XOR with the polynomial,
    otherwise shift left and mask. *)
Definition spec_round (poly c : Z) : Z :=
  if Z.testbit c 7
  then Z.lxor ((2 * c) mod 256) poly
  else (2 * c) mod 256.

(** Eight iterations starting from the byte. *)
Definition spec_entry (poly b : Z) : Z :=
  Nat.iter 8 (spec_round poly) b.

(** The checksum as a fold of [table[running XOR next]] over the bytes,
    the table being the function [spec_entry poly]; the final running
    value is returned as it is. *)
Definition spec_checksum (poly : Z) (data : list Z) (initial : Z) : Z :=
  fold_left (fun running next => spec_entry poly (Z.lxor running next)) data initial.

(* ================================================================= *)
(** ** Measurement decoder *)

Declare Scope result_scope.
Delimit Scope result_scope with result.

Definition rbind {A B} (r : result A) (k : A -> result B) : result B :=
  match r with
  | Ok a => k a
  | Raise e => Raise e
  end.

Notation "x <- c ;; k" := (rbind c (fun x => k))
  (at level 61, c at next level, right associativity) : result_scope.

(** The two messages of [parse_sht4x]:
    [f"SHT4x temperature CRC fail: {hex(crc8_fast(t_bytes))} != {hex(t_crc)}"] and
    [f"SHT4x humidity    CRC fail: {hex(crc8_fast(h_bytes))} != {hex(h_crc)}"]. *)
Definition temperature_crc_fail (computed embedded : Z) : string :=
  ("SHT4x temperature CRC fail: " ++ hex computed ++ " != " ++ hex embedded)%string.

Definition humidity_crc_fail (computed embedded : Z) : string :=
  ("SHT4x humidity    CRC fail: " ++ hex computed ++ " != " ++ hex embedded)%string.

(** The transfer functions, [-45 + 175 * (t_raw / 65535.0)] and
    [100 * (h_raw / 65535.0)], in binary64 arithmetic. *)
Definition temperature_of_raw (t_raw : Z) : float :=
  (-45 + 175 * (float_of_int t_raw / 65535))%float.

Definition humidity_of_raw (h_raw : Z) : float :=
  (100 * (float_of_int h_raw / 65535))%float.

(** [SHT4x.parse_sht4x(self, buf)]; [self] is not used. *)
Definition parse_sht4x (buf : list Z) : result (float * float) :=
  (let t_bytes := slice buf 0 2 in
   t_crc <- getitem buf 2 ;;
   let h_bytes := slice buf 3 5 in
   h_crc <- getitem buf 5 ;;
   t_sum <- crc8_fast t_bytes crc8_init ;;
   if negb (t_sum =? t_crc)
   then Raise (RuntimeError (temperature_crc_fail t_sum t_crc))
   else
     h_sum <- crc8_fast h_bytes crc8_init ;;
     if negb (h_sum =? h_crc)
     then Raise (RuntimeError (humidity_crc_fail h_sum h_crc))
     else
       let t_raw := int_from_bytes_big t_bytes in
       let h_raw := int_from_bytes_big h_bytes in
       let temperature := temperature_of_raw t_raw in
       let humidity := humidity_of_raw h_raw in
       Ok (temperature, humidity))%result.

(* ----------------------------------------------------------------- *)
(** *** Frames, for the statements about the decoder *)

(** The frame the sensor sends for two raw words: each word big-endian,
    followed by its CRC-8 (for 16-bit words the checksum always exists;
    the fallback [0] is never taken). *)
Definition word_bytes (w : Z) : list Z :=
  [Z.shiftr w 8; Z.land w 0xFF].

Definition checksum_byte (word : list Z) : Z :=
  match crc8_fast word crc8_init with
  | Ok c => c
  | Raise _ => 0
  end.

Definition frame_of_words (t h : Z) : list Z :=
  word_bytes t ++ [checksum_byte (word_bytes t)] ++
  word_bytes h ++ [checksum_byte (word_bytes h)].

(** Both embedded checksums of a frame are the computed ones. *)
Definition checksums_valid (buf : list Z) : Prop :=
  (exists c, crc8_fast (slice buf 0 2) crc8_init = Ok c /\ getitem buf 2 = Ok c) /\
  (exists c, crc8_fast (slice buf 3 5) crc8_init = Ok c /\ getitem buf 5 = Ok c).

(** Flip bit [k] of the byte at position [pos], leaving the rest (and so
    the checksum bytes) as they are. *)
Fixpoint flip_bit (buf : list Z) (pos : nat) (k : Z) : list Z :=
  match buf, pos with
  | [], _ => []
  | b :: rest, O => Z.lxor b (Z.shiftl 1 k) :: rest
  | b :: rest, S p => b :: flip_bit rest p k
  end.

(** The frame with the byte at position [pos] replaced by [v]. *)
Fixpoint set_byte (buf : list Z) (pos : nat) (v : Z) : list Z :=
  match buf, pos with
  | [], _ => []
  | _ :: rest, O => v :: rest
  | b :: rest, S p => b :: set_byte rest p v
  end.

(** [p] holds of the [n] integers from [x] on. *)
Fixpoint all_from (n : nat) (x : Z) (p : Z -> bool) : bool :=
  match n with
  | O => true
  | S k => p x && all_from k (x + 1) p
  end.

(** A raw word gives a temperature from -45 to 130 and a humidity from 0
    to 100, and the next raw word gives more of both. *)
Definition readings_in_range_and_rising (raw : Z) : bool :=
  ((-45 <=? temperature_of_raw raw) && (temperature_of_raw raw <=? 130) &&
   (0 <=? humidity_of_raw raw) && (humidity_of_raw raw <=? 100) &&
   (temperature_of_raw raw <? temperature_of_raw (raw + 1)) &&
   (humidity_of_raw raw <? humidity_of_raw (raw + 1)))%float.

(** The decoder failed, and with which field's message. *)
Inductive field : Type := Temperature | Humidity.

Definition checksum_mismatch (f : field) (r : result (float * float)) : Prop :=
  exists computed embedded,
    computed <> embedded /\
    r = Raise (RuntimeError
                 (match f with
                  | Temperature => temperature_crc_fail computed embedded
                  | Humidity => humidity_crc_fail computed embedded
                  end)).

(** No character of the string is a space. *)
Fixpoint no_space (s : string) : bool :=
  match s with
  | EmptyString => true
  | String c rest => negb (Ascii.eqb c " ") && no_space rest
  end.

(** The field a position of the frame belongs to: the word and the
    checksum of the temperature first, then those of the humidity. *)
Definition field_of_position (pos : nat) : field :=
  if (pos <? 3)%nat then Temperature else Humidity.

(* ================================================================= *)
(** ** The pigpio transport *)

(** The four bus operations of [pigpio.pi] the driver uses, and the
    constructor [pigpio.pi()]. Each answers from the state of the bus and
    may change it; each may also raise ([pigpio.error]). *)
Class Pigpio (conn bus : Type) : Type := {
  pigpio_pi : bus -> result conn * bus;
  i2c_open : conn -> Z -> Z -> bus -> result Z * bus;
  i2c_write_byte : conn -> Z -> Z -> bus -> result Z * bus;
  i2c_read_device : conn -> Z -> Z -> bus -> result (Z * data) * bus;
  i2c_close : conn -> Z -> bus -> result Z * bus
}.

(** What the driver asked of the outside, in order. *)
Inductive call : Type :=
| Call_pi
| Call_i2c_open (bus_id address : Z)
| Call_i2c_write_byte (handle byte : Z)
| Call_i2c_read_device (handle count : Z)
| Call_i2c_close (handle : Z)
| Call_sleep (milliseconds : Z).

(** A call on the bus, as opposed to the wait. *)
Definition is_transport_call (c : call) : bool :=
  match c with
  | Call_sleep _ => false
  | _ => true
  end.

Definition is_close_of (h : Z) (c : call) : bool :=
  match c with
  | Call_i2c_close h' => h' =? h
  | _ => false
  end.

Record world (bus : Type) : Type := World {
  bus_state : bus;
  calls : list call
}.
Arguments World {bus} _ _.
Arguments bus_state {bus} _.
Arguments calls {bus} _.

(** Computations over the bus that may raise. *)
Definition M (bus A : Type) : Type := world bus -> result A * world bus.

Definition ret {bus A} (a : A) : M bus A := fun w => (Ok a, w).

Definition raise {bus A} (e : exn) : M bus A := fun w => (Raise e, w).

Definition bind {bus A B} (m : M bus A) (k : A -> M bus B) : M bus B :=
  fun w =>
    match m w with
    | (Ok a, w') => k a w'
    | (Raise e, w') => (Raise e, w')
    end.

Definition lift {bus A} (r : result A) : M bus A := fun w => (r, w).

(** Make a call: note it, then let the bus answer. *)
Definition perform {bus A} (c : call) (op : bus -> result A * bus) : M bus A :=
  fun w =>
    let (r, b) := op (bus_state w) in
    (r, World b (calls w ++ [c])).

Declare Scope io_scope.
Delimit Scope io_scope with io.

Notation "x <- c ;; k" := (bind c (fun x => k))
  (at level 61, c at next level, right associativity) : io_scope.
Notation "c ;; k" := (bind c (fun _ => k))
  (at level 61, right associativity) : io_scope.

(** [time.sleep(0.01)] *)
Definition sleep_10ms {bus} : M bus unit :=
  fun w => (Ok tt, World (bus_state w) (calls w ++ [Call_sleep 10])).

(* ================================================================= *)
(** ** Sensor session *)

Module SHT4x.

Definition SOFT_RESET : Z := 0x94.
Definition NOHEAT_HIGHPRECISION : Z := 0xFD.

(** The attributes of an instance. *)
Record t (conn : Type) : Type := Build {
  pi : conn;
  handle : Z;
  mode : Z
}.
Arguments Build {conn} _ _ _.
Arguments pi {conn} _.
Arguments handle {conn} _.
Arguments mode {conn} _.


(** [f"{address:02X}"]: upper-case hexadecimal, zero-padded to width 2
    (the sign counts in the width). *)
Definition upper (c : ascii) : ascii :=
  let n := N_of_ascii c in
  if ((97 <=? n) && (n <=? 122))%N then ascii_of_N (n - 32) else c.

Definition format_02X (n : Z) : string :=
  let digits (m : Z) :=
    string_of_list_ascii
      (map upper (list_ascii_of_string
         (HexadecimalString.NilZero.string_of_uint (N.to_hex_uint (Z.to_N m))))) in
  if n <? 0 then ("-" ++ digits (- n))%string
  else if (String.length (digits n) <? 2)%nat then ("0" ++ digits n)%string
       else digits n.

Definition cannot_open (bus_id address : Z) : string :=
  ("Cannot open I2C bus" ++ str bus_id ++ "@0x" ++ format_02X address)%string.

(** [mode or self.NOHEAT_HIGHPRECISION]: [None] and [0] are falsy. *)
Definition mode_or_default (mode : option Z) : Z :=
  match mode with
  | None => NOHEAT_HIGHPRECISION
  | Some m => if m =? 0 then NOHEAT_HIGHPRECISION else m
  end.

Section Methods.
Context {conn bus : Type} `{Pigpio conn bus}.

(** [__init__(self, pi=None, bus=0, address=0x44, mode=None)] *)
Definition init (pi_arg : option conn) (bus_id address : Z) (mode_arg : option Z)
  : M bus (t conn) :=
  (p <- match pi_arg with
        | Some p => ret p
        | None => perform Call_pi pigpio_pi
        end ;;
   h <- perform (Call_i2c_open bus_id address) (i2c_open p bus_id address) ;;
   if h <? 0
   then raise (RuntimeError (cannot_open bus_id address))
   else ret (Build p h (mode_or_default mode_arg)))%io.

(** [reset(self)] *)
Definition reset (self : t conn) : M bus unit :=
  (rc <- perform (Call_i2c_write_byte (handle self) SOFT_RESET)
                 (i2c_write_byte (pi self) (handle self) SOFT_RESET) ;;
   if negb (rc =? 0)
   then raise (RuntimeError "SHT4x soft reset failed")
   else ret tt)%io.

(** [read(self)] *)
Definition read (self : t conn) : M bus (list Z) :=
  (rc <- perform (Call_i2c_write_byte (handle self) (mode self))
                 (i2c_write_byte (pi self) (handle self) (mode self)) ;;
   if negb (rc =? 0)
   then raise (RuntimeError "SHT4x measure cmd failed")
   else
     sleep_10ms ;;
     cd <- perform (Call_i2c_read_device (handle self) 6)
                   (i2c_read_device (pi self) (handle self) 6) ;;
     let (count, data) := (cd : Z * data) in
     if negb (count =? 6)
     then raise (RuntimeError ("Expected 6 bytes, got " ++ str count))
     else match data with
          | Str s => lift (encode_latin1 s)
          | Bytes b => ret b
          end)%io.

(** The property [measurements]: [self.parse_sht4x(self.read())] *)
Definition measurements (self : t conn) : M bus (float * float) :=
  (buf <- read self ;;
   lift (parse_sht4x buf))%io.

(** [close(self)] *)
Definition close (self : t conn) : M bus unit :=
  (perform (Call_i2c_close (handle self)) (i2c_close (pi self) (handle self)) ;;
   ret tt)%io.

End Methods.

End SHT4x.

(* ----------------------------------------------------------------- *)
(** *** A bus for tests *)

(** A stand-in for the pigpio daemon with one sensor behind it, behaving
    as pigpio does: handles are the smallest free numbers, an operation
    on a handle that is not open raises [pigpio.error] with
    [PI_BAD_HANDLE] (-25), [i2c_read_device] hands back at most [count]
    bytes of what the sensor has to say. *)
Module Fake.

Record bus : Type := Bus {
  open_handles : list Z;
  response : list Z
}.

Definition PI_BAD_HANDLE : Z := -25.

Definition is_open (h : Z) (b : bus) : bool :=
  existsb (Z.eqb h) (open_handles b).

Definition free_handle (b : bus) : Z :=
  match find (fun h => negb (is_open h b))
             (range (S (List.length (open_handles b)))) with
  | Some h => h
  | None => 0
  end.

#[global] Instance pigpio : Pigpio unit bus := {
  pigpio_pi := fun b => (Ok tt, b);
  i2c_open := fun _ _ _ b =>
    let h := free_handle b in
    (Ok h, Bus (h :: open_handles b) (response b));
  i2c_write_byte := fun _ h _ b =>
    if is_open h b then (Ok 0, b) else (Raise (PigpioError PI_BAD_HANDLE), b);
  i2c_read_device := fun _ h count b =>
    if is_open h b
    then let d := firstn (Z.to_nat count) (response b) in
         (Ok (Z.of_nat (List.length d), Bytes d), b)
    else (Raise (PigpioError PI_BAD_HANDLE), b);
  i2c_close := fun _ h b =>
    if is_open h b
    then (Ok 0, Bus (filter (fun h' => negb (h' =? h)) (open_handles b)) (response b))
    else (Raise (PigpioError PI_BAD_HANDLE), b)
}.

(** Nothing open yet, and the sensor will answer with [frame]. *)
Definition start (frame : list Z) : world bus := World (Bus [] frame) [].

End Fake.

(** The same bus with [pigpio.exceptions = False]: an operation on a
    handle that is not open answers with the status [PI_BAD_HANDLE]
    instead of raising ([i2c_read_device] with that count and an empty
    [str]), and a negative bus number is answered with [PI_BAD_I2C_BUS]
    (-80) for a handle. *)
Module Quiet.

Definition PI_BAD_I2C_BUS : Z := -80.

Definition pigpio : Pigpio unit Fake.bus := {|
  pigpio_pi := fun b => (Ok tt, b);
  i2c_open := fun _ bus_id _ b =>
    if bus_id <? 0 then (Ok PI_BAD_I2C_BUS, b)
    else let h := Fake.free_handle b in
         (Ok h, Fake.Bus (h :: Fake.open_handles b) (Fake.response b));
  i2c_write_byte := fun _ h _ b =>
    if Fake.is_open h b then (Ok 0, b) else (Ok Fake.PI_BAD_HANDLE, b);
  i2c_read_device := fun _ h count b =>
    if Fake.is_open h b
    then let d := firstn (Z.to_nat count) (Fake.response b) in
         (Ok (Z.of_nat (List.length d), Bytes d), b)
    else (Ok (Fake.PI_BAD_HANDLE, Str []), b);
  i2c_close := fun _ h b =>
    if Fake.is_open h b
    then (Ok 0, Fake.Bus (filter (fun h' => negb (h' =? h)) (Fake.open_handles b))
                         (Fake.response b))
    else (Ok Fake.PI_BAD_HANDLE, b)
|}.

End Quiet.

(* ----------------------------------------------------------------- *)
(** *** Notions for the statements about the session *)

(** A call that fails before it reaches the outside: it raises, and no
    call is added to the record. *)
Definition fails_fast {bus A} (m : M bus A) (w : world bus) : Prop :=
  (exists e, fst (m w) = Raise e) /\ calls (snd (m w)) = calls w.

(** How many times the release of handle [h] was asked of the transport. *)
Definition releases {bus} (h : Z) (w : world bus) : nat :=
  List.length (filter (is_close_of h) (calls w)).

(** The frame of the sensor for raw words 0x6666 and 0xFFFF. *)
Definition sample_frame : list Z := [0x66; 0x66; 0x93; 0xFF; 0xFF; 0xAC].

(* ================================================================= *)
(** * Properties *)

(* ================================================================= *)
(** ** Bytes and bit operations *)

Lemma is_byte_land_255 (x : Z) : is_byte (Z.land x 0xFF).
Proof.
  unfold is_byte. change 0xFF with (Z.ones 8).
  rewrite Z.land_ones by lia. change (2 ^ 8) with 256.
  pose proof (Z.mod_pos_bound x 256). lia.
Qed.

Lemma is_byte_iff_land (x : Z) : is_byte x <-> Z.land x 0xFF = x.
Proof.
  change 0xFF with (Z.ones 8). rewrite Z.land_ones by lia.
  change (2 ^ 8) with 256. unfold is_byte. split; intros Hx.
  - apply Z.mod_small; exact Hx.
  - rewrite <- Hx. apply Z.mod_pos_bound. lia.
Qed.

Lemma land_lxor_distr (a b m : Z) :
  Z.land (Z.lxor a b) m = Z.lxor (Z.land a m) (Z.land b m).
Proof.
  apply Z.bits_inj'. intros n _.
  rewrite Z.land_spec, !Z.lxor_spec, !Z.land_spec.
  destruct (Z.testbit a n), (Z.testbit b n), (Z.testbit m n); reflexivity.
Qed.

Lemma is_byte_lxor (a b : Z) : is_byte a -> is_byte b -> is_byte (Z.lxor a b).
Proof.
  intros Ha Hb. apply is_byte_iff_land in Ha, Hb.
  apply is_byte_iff_land.
  rewrite land_lxor_distr, Ha, Hb. reflexivity.
Qed.

(** [x & 0x80] is truthy exactly when bit 7 of [x] is set. *)
Lemma land_128_testbit (x : Z) :
  Z.land x 0x80 = if Z.testbit x 7 then 0x80 else 0.
Proof.
  apply Z.bits_inj'. intros n Hn.
  rewrite Z.land_spec. change 0x80 with (2 ^ 7).
  rewrite Z.pow2_bits_eqb by lia.
  destruct (Z.testbit x 7) eqn:E7.
  - rewrite Z.pow2_bits_eqb by lia.
    destruct (Z.eqb_spec 7 n) as [<- | Hne].
    + rewrite E7. reflexivity.
    + apply andb_false_r.
  - rewrite Z.bits_0.
    destruct (Z.eqb_spec 7 n) as [<- | Hne].
    + rewrite E7. reflexivity.
    + apply andb_false_r.
Qed.

Lemma high_bit_test (x : Z) : negb (Z.land x 0x80 =? 0) = Z.testbit x 7.
Proof.
  rewrite land_128_testbit. destruct (Z.testbit x 7); reflexivity.
Qed.

Lemma shift_mask (x : Z) : Z.land (Z.shiftl x 1) 0xFF = (2 * x) mod 256.
Proof.
  change 0xFF with (Z.ones 8). rewrite Z.land_ones by lia.
  rewrite Z.shiftl_mul_pow2 by lia.
  change (2 ^ 1) with 2. change (2 ^ 8) with 256.
  f_equal. lia.
Qed.

(* ================================================================= *)
(** ** The table *)

Lemma length_range (n : nat) : List.length (range n) = n.
Proof. unfold range. rewrite length_map, length_seq. reflexivity. Qed.

Lemma nth_error_range (n k : nat) :
  (k < n)%nat -> nth_error (range n) k = Some (Z.of_nat k).
Proof.
  intros Hk. unfold range.
  rewrite nth_error_map, nth_error_seq.
  destruct (Nat.ltb_spec k n); [reflexivity | lia].
Qed.

(** A loop that appends one value per element builds the [map]. *)
Lemma fold_left_append {A B} (f : A -> B) (l : list A) (acc : list B) :
  fold_left (fun table x => table ++ [f x]) l acc = acc ++ map f l.
Proof.
  revert acc. induction l as [| x l IH]; intros acc; simpl.
  - rewrite app_nil_r. reflexivity.
  - rewrite IH, <- app_assoc. reflexivity.
Qed.

Lemma make_crc_table_map (poly : Z) :
  make_crc_table poly = map (crc_of_byte poly) (range 256).
Proof. unfold make_crc_table. rewrite fold_left_append. reflexivity. Qed.

Lemma length_make_crc_table (poly : Z) :
  List.length (make_crc_table poly) = 256%nat.
Proof. rewrite make_crc_table_map, length_map. apply length_range. Qed.

Lemma getitem_in_range {A} (l : list A) (i : Z) (x : A) :
  0 <= i -> nth_error l (Z.to_nat i) = Some x -> getitem l i = Ok x.
Proof.
  intros Hi Hx. unfold getitem.
  assert (Hlt : (Z.to_nat i < List.length l)%nat)
    by (apply nth_error_Some; rewrite Hx; discriminate).
  destruct (Z.ltb_spec i 0); [lia |].
  destruct (Z.leb_spec 0 i); [| lia].
  destruct (Z.ltb_spec i (Z.of_nat (List.length l))); [| lia].
  simpl. rewrite Hx. reflexivity.
Qed.

Lemma getitem_make_crc_table (poly i : Z) :
  is_byte i -> getitem (make_crc_table poly) i = Ok (crc_of_byte poly i).
Proof.
  intros [Hlo Hhi]. apply getitem_in_range; [exact Hlo |].
  rewrite make_crc_table_map, nth_error_map, nth_error_range by lia.
  simpl. rewrite Z2Nat.id by lia. reflexivity.
Qed.

Lemma crc_of_byte_iter (poly b : Z) :
  crc_of_byte poly b = Nat.iter 8 (crc_round poly) b.
Proof. reflexivity. Qed.

Lemma crc_round_spec (poly c : Z) : crc_round poly c = spec_round poly c.
Proof.
  unfold crc_round, spec_round.
  rewrite high_bit_test, shift_mask. reflexivity.
Qed.

Lemma crc_of_byte_spec (poly b : Z) : crc_of_byte poly b = spec_entry poly b.
Proof.
  rewrite crc_of_byte_iter. unfold spec_entry.
  generalize 8%nat. intros n. induction n as [| n IH]; simpl.
  - reflexivity.
  - rewrite IH. apply crc_round_spec.
Qed.

Lemma is_byte_crc_round (poly c : Z) : is_byte poly -> is_byte (crc_round poly c).
Proof.
  intros Hp. unfold crc_round.
  destruct (negb (Z.land c 0x80 =? 0)).
  - apply is_byte_lxor; [apply is_byte_land_255 | exact Hp].
  - apply is_byte_land_255.
Qed.

Lemma is_byte_crc_of_byte (poly b : Z) : is_byte poly -> is_byte (crc_of_byte poly b).
Proof.
  intros Hp. rewrite crc_of_byte_iter. simpl.
  apply is_byte_crc_round. exact Hp.
Qed.

Lemma is_bytes_make_crc_table (poly : Z) : is_byte poly -> is_bytes (make_crc_table poly).
Proof.
  intros Hp. rewrite make_crc_table_map. unfold is_bytes.
  apply Forall_map, Forall_forall. intros b _.
  apply is_byte_crc_of_byte. exact Hp.
Qed.

Lemma getitem_CRC_TABLE (i : Z) :
  is_byte i -> getitem CRC_TABLE i = Ok (crc_of_byte 0x31 i).
Proof. apply getitem_make_crc_table. Qed.

(** C5: the table built from polynomial 0x31 has exactly 256 entries, and
    for every byte value [b] in 0..255 entry [b] is the result of starting
    from [b] and applying 8 iterations of: if the high bit (0x80) is set,
    shift left one bit, mask to 8 bits and XOR with the polynomial;
    otherwise shift left one bit and mask to 8 bits. *)
Theorem crc_table_entries (b : Z) :
  0 <= b <= 255 ->
  CRC_TABLE = make_crc_table 0x31 /\
  List.length CRC_TABLE = 256%nat /\
  getitem CRC_TABLE b = Ok (spec_entry 0x31 b) /\
  nth_error CRC_TABLE (Z.to_nat b) = Some (Nat.iter 8 (spec_round 0x31) b).
Proof.
  intros Hb.
  assert (Hbyte : is_byte b) by (unfold is_byte; lia).
  split; [reflexivity |].
  split; [apply length_make_crc_table |].
  split.
  - rewrite getitem_CRC_TABLE by exact Hbyte.
    rewrite crc_of_byte_spec. reflexivity.
  - unfold CRC_TABLE.
    rewrite make_crc_table_map, nth_error_map, nth_error_range by lia.
    simpl option_map. rewrite Z2Nat.id by lia.
    rewrite crc_of_byte_spec. reflexivity.
Qed.

Lemma crc_table_entries_witness :
  getitem CRC_TABLE 0xBE = Ok (spec_entry 0x31 0xBE).
Proof.
  apply (crc_table_entries 0xBE). lia.
Defined.

(* ================================================================= *)
(** ** The checksum *)

Lemma is_byte_crc_step (crc byte : Z) : is_byte (crc_step crc byte).
Proof. apply is_byte_crc_of_byte. unfold is_byte. lia. Qed.

Lemma crc8_fast_cons (byte : Z) (rest : list Z) (init : Z) :
  is_byte init -> is_byte byte ->
  crc8_fast (byte :: rest) init = crc8_fast rest (crc_step init byte).
Proof.
  intros Hi Hb. simpl.
  rewrite getitem_CRC_TABLE by (apply is_byte_lxor; assumption).
  reflexivity.
Qed.

Lemma crc8_fast_fold (data : list Z) (init : Z) :
  is_bytes data -> is_byte init ->
  crc8_fast data init = Ok (fold_left crc_step data init).
Proof.
  intros Hd. revert init.
  induction Hd as [| byte rest Hb Hrest IH]; intros init Hi.
  - reflexivity.
  - rewrite crc8_fast_cons by assumption.
    rewrite IH by apply is_byte_crc_step. reflexivity.
Qed.

Lemma fold_crc_step_spec (data : list Z) (init : Z) :
  fold_left crc_step data init = spec_checksum 0x31 data init.
Proof.
  unfold spec_checksum. revert init.
  induction data as [| byte rest IH]; intros init; simpl.
  - reflexivity.
  - rewrite IH. unfold crc_step. rewrite crc_of_byte_spec. reflexivity.
Qed.

Lemma is_byte_fold_crc_step (data : list Z) (init : Z) :
  is_byte init -> is_byte (fold_left crc_step data init).
Proof.
  revert init. induction data as [| byte rest IH]; intros init Hi; simpl.
  - exact Hi.
  - apply IH, is_byte_crc_step.
Qed.

(** C1: [crc8_fast] is the sensor's CRC-8: from the initial value 0xFF it
    folds [table[running XOR next]] over the bytes, the table being the
    one of polynomial 0x31, and returns the last running value with no
    final XOR; on [0xBE, 0xEF] it gives the documented 0x92. *)
Theorem crc8_fast_is_sensor_crc8 (data : list Z) :
  is_bytes data ->
  crc8_init = 0xFF /\
  crc8_fast data crc8_init = Ok (spec_checksum 0x31 data 0xFF) /\
  (forall init, is_byte init ->
     crc8_fast data init = Ok (spec_checksum 0x31 data init)) /\
  crc8_fast [0xBE; 0xEF] crc8_init = Ok 0x92.
Proof.
  intros Hd.
  assert (Hgen : forall init, is_byte init ->
            crc8_fast data init = Ok (spec_checksum 0x31 data init)).
  { intros init Hi. rewrite crc8_fast_fold by assumption.
    rewrite fold_crc_step_spec. reflexivity. }
  split; [reflexivity |].
  split; [apply Hgen; unfold crc8_init, is_byte; lia |].
  split; [exact Hgen |].
  vm_compute. reflexivity.
Qed.

Lemma crc8_fast_is_sensor_crc8_witness :
  crc8_fast [0x66; 0x66] crc8_init = Ok (spec_checksum 0x31 [0x66; 0x66] 0xFF).
Proof.
  assert (Hd : is_bytes [0x66; 0x66])
    by (repeat constructor; unfold is_byte; lia).
  exact (proj1 (proj2 (crc8_fast_is_sensor_crc8 [0x66; 0x66] Hd))).
Defined.

(** C10: every entry of the table built by [make_crc_table], for any
    8-bit polynomial, is in 0..255; and [crc8_fast], on bytes and from an
    initial value in 0..255, keeps its running value in 0..255 after any
    number [k] of bytes, so the next table index [crc XOR byte] is in
    0..255 too and the value returned is a byte. *)
Theorem crc_values_are_bytes (poly : Z) (data : list Z) (init : Z) (k : nat) :
  is_byte poly -> is_bytes data -> is_byte init ->
  Forall (fun entry => 0 <= entry <= 255) (make_crc_table poly) /\
  (exists crc,
     crc8_fast (firstn k data) init = Ok crc /\ 0 <= crc <= 255 /\
     forall byte, nth_error data k = Some byte ->
       0 <= Z.lxor crc byte <= 255 /\
       (Z.to_nat (Z.lxor crc byte) < List.length CRC_TABLE)%nat) /\
  (exists crc, crc8_fast data init = Ok crc /\ 0 <= crc <= 255).
Proof.
  intros Hp Hd Hi.
  split.
  { eapply Forall_impl; [| apply is_bytes_make_crc_table; exact Hp].
    unfold is_byte. intros; lia. }
  split.
  - assert (Hpre : is_bytes (firstn k data)).
    { pose proof Hd as Hsplit. unfold is_bytes in Hsplit.
      rewrite <- (firstn_skipn k data) in Hsplit.
      apply Forall_app in Hsplit. exact (proj1 Hsplit). }
    exists (fold_left crc_step (firstn k data) init).
    split; [apply crc8_fast_fold; assumption |].
    pose proof (is_byte_fold_crc_step (firstn k data) init Hi) as Hrun.
    split; [unfold is_byte in Hrun; lia |].
    intros byte Hbyte.
    assert (Hb : is_byte byte).
    { unfold is_bytes in Hd. rewrite Forall_forall in Hd.
      apply Hd. eapply nth_error_In; eauto. }
    pose proof (is_byte_lxor _ _ Hrun Hb) as Hx.
    unfold CRC_TABLE. rewrite length_make_crc_table.
    unfold is_byte in Hx. split; lia.
  - exists (fold_left crc_step data init).
    split; [apply crc8_fast_fold; assumption |].
    pose proof (is_byte_fold_crc_step data init Hi) as Hrun.
    unfold is_byte in Hrun. lia.
Qed.

Lemma crc_values_are_bytes_witness :
  exists crc, crc8_fast [0xBE; 0xEF] 0xFF = Ok crc /\ 0 <= crc <= 255.
Proof.
  assert (Hp : is_byte 0x31) by (unfold is_byte; lia).
  assert (Hd : is_bytes [0xBE; 0xEF])
    by (repeat constructor; unfold is_byte; lia).
  assert (Hi : is_byte 0xFF) by (unfold is_byte; lia).
  exact (proj2 (proj2 (crc_values_are_bytes 0x31 [0xBE; 0xEF] 0xFF 1 Hp Hd Hi))).
Defined.

Lemma Ok_injective {A} (x y : A) : Ok x = Ok y -> x = y.
Proof. intros Heq. inversion Heq. reflexivity. Qed.

Lemma all_from_spec (n : nat) (x : Z) (p : Z -> bool) :
  all_from n x p = true ->
  forall y, x <= y < x + Z.of_nat n -> p y = true.
Proof.
  revert x. induction n as [| n IH]; intros x Hall y Hy.
  - cbn in Hy. lia.
  - cbn [all_from] in Hall. apply andb_true_iff in Hall.
    destruct Hall as [Hx Hrest].
    destruct (Z.eq_dec y x) as [-> | Hne]; [exact Hx |].
    apply (IH (x + 1) Hrest). lia.
Qed.

(* ----------------------------------------------------------------- *)
(** *** The values in a failure message can be read back *)

Lemma append_cancel_l (p s t : string) :
  (p ++ s)%string = (p ++ t)%string -> s = t.
Proof.
  induction p as [| c p IH]; cbn [String.append]; intros Heq.
  - exact Heq.
  - apply IH. inversion Heq. reflexivity.
Qed.

(** Two strings without a space, each followed by a space and more: the
    space found first is the same, so the parts are. *)
Lemma split_at_space (s1 s2 r1 r2 : string) :
  no_space s1 = true -> no_space s2 = true ->
  (s1 ++ String " " r1)%string = (s2 ++ String " " r2)%string ->
  s1 = s2 /\ r1 = r2.
Proof.
  revert s2. induction s1 as [| c1 s1 IH]; intros [| c2 s2] Hn1 Hn2 Heq;
    cbn [String.append no_space] in *.
  - inversion Heq. split; reflexivity.
  - inversion Heq as [[Hc Hr]]. rewrite <- Hc in Hn2. discriminate Hn2.
  - inversion Heq as [[Hc Hr]]. rewrite Hc in Hn1. discriminate Hn1.
  - apply andb_true_iff in Hn1, Hn2.
    inversion Heq as [[Hc Hr]].
    destruct (IH s2 (proj2 Hn1) (proj2 Hn2) Hr) as [-> ->].
    split; reflexivity.
Qed.

Lemma hex_bytes_checked :
  all_from 256 0
    (fun a => no_space (hex a) &&
              all_from 256 0 (fun c => (a =? c) || negb (String.eqb (hex a) (hex c))))
  = true.
Proof. vm_compute. reflexivity. Qed.

Lemma hex_byte_no_space (a : Z) : is_byte a -> no_space (hex a) = true.
Proof.
  intros Ha. unfold is_byte in Ha.
  pose proof (all_from_spec _ _ _ hex_bytes_checked a ltac:(cbn; lia)) as Hcheck.
  cbv beta in Hcheck. apply andb_true_iff in Hcheck. exact (proj1 Hcheck).
Qed.

(** Different bytes print differently. *)
Lemma hex_byte_injective (a c : Z) :
  is_byte a -> is_byte c -> hex a = hex c -> a = c.
Proof.
  intros Ha Hc Heq. unfold is_byte in Ha, Hc.
  pose proof (all_from_spec _ _ _ hex_bytes_checked a ltac:(cbn; lia)) as Hcheck.
  cbv beta in Hcheck. apply andb_true_iff in Hcheck.
  pose proof (all_from_spec _ _ _ (proj2 Hcheck) c ltac:(cbn; lia)) as Hpair.
  cbv beta in Hpair. apply orb_true_iff in Hpair.
  destruct Hpair as [Hsame | Hdiff].
  - apply Z.eqb_eq. exact Hsame.
  - rewrite Heq, String.eqb_refl in Hdiff. discriminate Hdiff.
Qed.

(** A message made of a fixed beginning, the computed value, [" != "]
    and the embedded value gives both values back. *)
Lemma crc_fail_values_carried (beginning : string) (a b c d : Z) :
  is_byte a -> is_byte b -> is_byte c -> is_byte d ->
  (beginning ++ hex a ++ " != " ++ hex b)%string
  = (beginning ++ hex c ++ " != " ++ hex d)%string ->
  a = c /\ b = d.
Proof.
  intros Ha Hb Hc Hd Heq.
  apply append_cancel_l in Heq.
  change (" != " ++ hex b)%string with (String " " ("!= " ++ hex b)) in Heq.
  change (" != " ++ hex d)%string with (String " " ("!= " ++ hex d)) in Heq.
  apply split_at_space in Heq; try (apply hex_byte_no_space; assumption).
  destruct Heq as [Hac Hbd].
  apply append_cancel_l in Hbd.
  split; apply hex_byte_injective; assumption.
Qed.

(* ================================================================= *)
(** ** The decoder on a six-byte frame *)

Lemma six_bytes (buf : list Z) :
  List.length buf = 6%nat -> is_bytes buf ->
  exists b0 b1 b2 b3 b4 b5,
    buf = [b0; b1; b2; b3; b4; b5] /\
    is_byte b0 /\ is_byte b1 /\ is_byte b2 /\
    is_byte b3 /\ is_byte b4 /\ is_byte b5.
Proof.
  intros Hlen Hwf.
  destruct buf as [| b0 [| b1 [| b2 [| b3 [| b4 [| b5 [| ? ?]]]]]]];
    try discriminate Hlen.
  exists b0, b1, b2, b3, b4, b5.
  unfold is_bytes in Hwf.
  repeat match goal with
         | H : Forall _ (_ :: _) |- _ => inversion H; clear H; subst
         end.
  split; [reflexivity |].
  repeat (split; [assumption |]). assumption.
Qed.

Lemma is_byte_crc8_init : is_byte crc8_init.
Proof. unfold is_byte, crc8_init. lia. Qed.

Lemma crc8_fast_word (a b : Z) :
  is_byte a -> is_byte b ->
  crc8_fast [a; b] crc8_init = Ok (crc_step (crc_step crc8_init a) b).
Proof.
  intros Ha Hb.
  assert (Hw : is_bytes [a; b]).
  { apply Forall_cons; [exact Ha |].
    apply Forall_cons; [exact Hb |].
    apply Forall_nil. }
  rewrite (crc8_fast_fold [a; b] crc8_init Hw is_byte_crc8_init).
  cbn [fold_left]. reflexivity.
Qed.

(** What [parse_sht4x] does on six bytes, with the two checksums named. *)
Lemma parse_sht4x_frame (b0 b1 b2 b3 b4 b5 : Z) :
  is_byte b0 -> is_byte b1 -> is_byte b3 -> is_byte b4 ->
  parse_sht4x [b0; b1; b2; b3; b4; b5] =
  let t_sum := crc_step (crc_step crc8_init b0) b1 in
  let h_sum := crc_step (crc_step crc8_init b3) b4 in
  if negb (t_sum =? b2)
  then Raise (RuntimeError (temperature_crc_fail t_sum b2))
  else if negb (h_sum =? b5)
       then Raise (RuntimeError (humidity_crc_fail h_sum b5))
       else Ok (temperature_of_raw (b0 * 256 + b1), humidity_of_raw (b3 * 256 + b4)).
Proof.
  intros H0 H1 H3 H4. unfold parse_sht4x.
  change (slice [b0; b1; b2; b3; b4; b5] 0 2) with [b0; b1].
  change (slice [b0; b1; b2; b3; b4; b5] 3 5) with [b3; b4].
  change (getitem [b0; b1; b2; b3; b4; b5] 2) with (Ok b2).
  change (getitem [b0; b1; b2; b3; b4; b5] 5) with (Ok b5).
  cbv zeta. cbn [rbind].
  rewrite (crc8_fast_word b0 b1 H0 H1). cbn [rbind].
  destruct (negb (crc_step (crc_step crc8_init b0) b1 =? b2)); [reflexivity |].
  rewrite (crc8_fast_word b3 b4 H3 H4). cbn [rbind].
  destruct (negb (crc_step (crc_step crc8_init b3) b4 =? b5)); [reflexivity |].
  unfold int_from_bytes_big. cbn [fold_left].
  replace (0 * 256 + b0) with b0 by lia.
  replace (0 * 256 + b3) with b3 by lia.
  reflexivity.
Qed.

Lemma checksums_valid_frame (b0 b1 b2 b3 b4 b5 : Z) :
  is_byte b0 -> is_byte b1 -> is_byte b3 -> is_byte b4 ->
  checksums_valid [b0; b1; b2; b3; b4; b5] <->
  crc_step (crc_step crc8_init b0) b1 = b2 /\
  crc_step (crc_step crc8_init b3) b4 = b5.
Proof.
  intros H0 H1 H3 H4. unfold checksums_valid.
  change (slice [b0; b1; b2; b3; b4; b5] 0 2) with [b0; b1].
  change (slice [b0; b1; b2; b3; b4; b5] 3 5) with [b3; b4].
  change (getitem [b0; b1; b2; b3; b4; b5] 2) with (Ok b2).
  change (getitem [b0; b1; b2; b3; b4; b5] 5) with (Ok b5).
  rewrite (crc8_fast_word b0 b1 H0 H1), (crc8_fast_word b3 b4 H3 H4).
  split.
  - intros [[c [Hc Hc']] [d [Hd Hd']]]. split; congruence.
  - intros [Ht Hh]. split; eexists; split; try reflexivity; congruence.
Qed.

(** The two messages never coincide: the field is named. *)
Lemma crc_fail_messages_differ (a b c d : Z) :
  temperature_crc_fail a b <> humidity_crc_fail c d.
Proof.
  unfold temperature_crc_fail, humidity_crc_fail.
  cbn [String.append]. intros Heq. discriminate Heq.
Qed.

Lemma checksum_mismatch_exclusive (r : result (float * float)) :
  checksum_mismatch Temperature r -> ~ checksum_mismatch Humidity r.
Proof.
  intros [a [b [_ Ht]]] [c [d [_ Hh]]].
  rewrite Ht in Hh.
  apply (crc_fail_messages_differ a b c d).
  congruence.
Qed.

(** C3: on every six-byte frame the decoder checks both checksums before
    it produces a value: when the checksum computed over bytes 0-1 is
    not byte 2 it raises ["SHT4x temperature CRC fail: <computed> !=
    <embedded>"], both values in hexadecimal; otherwise, when the one
    over bytes 3-4 is not byte 5, ["SHT4x humidity    CRC fail: <computed>
    != <embedded>"]; it returns a pair only when both are right, and
    there is no other outcome. The two messages are never the same, and
    each gives back the two values it was made of. *)
Theorem parse_sht4x_validates_checksums (buf : list Z) :
  List.length buf = 6%nat -> is_bytes buf ->
  exists t_sum t_crc h_sum h_crc,
    crc8_fast (slice buf 0 2) crc8_init = Ok t_sum /\
    getitem buf 2 = Ok t_crc /\
    crc8_fast (slice buf 3 5) crc8_init = Ok h_sum /\
    getitem buf 5 = Ok h_crc /\
    (t_sum <> t_crc ->
       parse_sht4x buf
       = Raise (RuntimeError ("SHT4x temperature CRC fail: "
                              ++ hex t_sum ++ " != " ++ hex t_crc))) /\
    (t_sum = t_crc -> h_sum <> h_crc ->
       parse_sht4x buf
       = Raise (RuntimeError ("SHT4x humidity    CRC fail: "
                              ++ hex h_sum ++ " != " ++ hex h_crc))) /\
    (t_sum = t_crc -> h_sum = h_crc ->
       exists measurement, parse_sht4x buf = Ok measurement) /\
    (forall measurement, parse_sht4x buf = Ok measurement ->
       t_sum = t_crc /\ h_sum = h_crc) /\
    (is_byte t_sum /\ is_byte t_crc /\ is_byte h_sum /\ is_byte h_crc) /\
    (forall a b c d,
       ("SHT4x temperature CRC fail: " ++ hex a ++ " != " ++ hex b)%string
       <> ("SHT4x humidity    CRC fail: " ++ hex c ++ " != " ++ hex d)%string) /\
    (forall a b c d,
       is_byte a -> is_byte b -> is_byte c -> is_byte d ->
       ("SHT4x temperature CRC fail: " ++ hex a ++ " != " ++ hex b)%string
       = ("SHT4x temperature CRC fail: " ++ hex c ++ " != " ++ hex d)%string ->
       a = c /\ b = d) /\
    (forall a b c d,
       is_byte a -> is_byte b -> is_byte c -> is_byte d ->
       ("SHT4x humidity    CRC fail: " ++ hex a ++ " != " ++ hex b)%string
       = ("SHT4x humidity    CRC fail: " ++ hex c ++ " != " ++ hex d)%string ->
       a = c /\ b = d) /\
    (hex 0 = "0x0" /\ hex 0x0A = "0xa" /\ hex 0x92 = "0x92" /\ hex 0xFF = "0xff")%string.
Proof.
  intros Hlen Hwf.
  destruct (six_bytes buf Hlen Hwf)
    as (b0 & b1 & b2 & b3 & b4 & b5 & -> & H0 & H1 & H2 & H3 & H4 & H5).
  exists (crc_step (crc_step crc8_init b0) b1), b2,
         (crc_step (crc_step crc8_init b3) b4), b5.
  rewrite (parse_sht4x_frame b0 b1 b2 b3 b4 b5 H0 H1 H3 H4). cbv zeta.
  unfold temperature_crc_fail, humidity_crc_fail.
  split; [apply crc8_fast_word; assumption |].
  split; [reflexivity |].
  split; [apply crc8_fast_word; assumption |].
  split; [reflexivity |].
  destruct (Z.eqb_spec (crc_step (crc_step crc8_init b0) b1) b2) as [Ht | Ht];
    destruct (Z.eqb_spec (crc_step (crc_step crc8_init b3) b4) b5) as [Hh | Hh];
    cbn [negb];
    (split; [intros; try contradiction; reflexivity |]);
    (split; [intros; try contradiction; reflexivity |]);
    (split; [intros; try contradiction; eexists; reflexivity |]);
    (split; [intros measurement Hm; try discriminate Hm; split; assumption |]);
    (split; [split; [apply is_byte_crc_step |];
             split; [assumption |];
             split; [apply is_byte_crc_step | assumption] |]);
    (split; [intros a b c d; apply (crc_fail_messages_differ a b c d) |]);
    (split; [intros a b c d; apply crc_fail_values_carried |]);
    (split; [intros a b c d; apply crc_fail_values_carried |]);
    repeat split.
Qed.

Lemma parse_sht4x_validates_checksums_witness :
  parse_sht4x [0xBE; 0xEF; 0x93; 0xBE; 0xEF; 0x5A]
  = Raise (RuntimeError "SHT4x temperature CRC fail: 0x92 != 0x93") /\
  parse_sht4x [0xBE; 0xEF; 0x92; 0xBE; 0xEF; 0x5A]
  = Raise (RuntimeError "SHT4x humidity    CRC fail: 0x92 != 0x5a").
Proof.
  assert (Hword : crc8_fast [0xBE; 0xEF] crc8_init = Ok 0x92)
    by (vm_compute; reflexivity).
  split.
  - assert (Hwf : is_bytes [0xBE; 0xEF; 0x93; 0xBE; 0xEF; 0x5A])
      by (repeat (apply Forall_cons; [unfold is_byte; lia |]); apply Forall_nil).
    destruct (parse_sht4x_validates_checksums
                [0xBE; 0xEF; 0x93; 0xBE; 0xEF; 0x5A] eq_refl Hwf)
      as (t_sum & t_crc & h_sum & h_crc & Ht & Htc & Hh & Hhc & Htemp & _).
    change (slice [0xBE; 0xEF; 0x93; 0xBE; 0xEF; 0x5A] 0 2) with [0xBE; 0xEF] in Ht.
    rewrite Hword in Ht. apply Ok_injective in Ht.
    change (getitem [0xBE; 0xEF; 0x93; 0xBE; 0xEF; 0x5A] 2) with (Ok 0x93) in Htc.
    apply Ok_injective in Htc. subst t_sum t_crc.
    apply Htemp. lia.
  - assert (Hwf : is_bytes [0xBE; 0xEF; 0x92; 0xBE; 0xEF; 0x5A])
      by (repeat (apply Forall_cons; [unfold is_byte; lia |]); apply Forall_nil).
    destruct (parse_sht4x_validates_checksums
                [0xBE; 0xEF; 0x92; 0xBE; 0xEF; 0x5A] eq_refl Hwf)
      as (t_sum & t_crc & h_sum & h_crc & Ht & Htc & Hh & Hhc & _ & Hhum & _).
    change (slice [0xBE; 0xEF; 0x92; 0xBE; 0xEF; 0x5A] 0 2) with [0xBE; 0xEF] in Ht.
    change (slice [0xBE; 0xEF; 0x92; 0xBE; 0xEF; 0x5A] 3 5) with [0xBE; 0xEF] in Hh.
    rewrite Hword in Ht, Hh. apply Ok_injective in Ht, Hh.
    change (getitem [0xBE; 0xEF; 0x92; 0xBE; 0xEF; 0x5A] 2) with (Ok 0x92) in Htc.
    change (getitem [0xBE; 0xEF; 0x92; 0xBE; 0xEF; 0x5A] 5) with (Ok 0x5A) in Hhc.
    apply Ok_injective in Htc, Hhc. subst t_sum t_crc h_sum h_crc.
    apply Hhum; [reflexivity | lia].
Defined.

(* ================================================================= *)
(** ** Raw words and the transfer functions *)

Lemma is_byte_shiftr_8 (w : Z) : 0 <= w <= 65535 -> is_byte (Z.shiftr w 8).
Proof.
  intros Hw. unfold is_byte.
  rewrite Z.shiftr_div_pow2 by lia. change (2 ^ 8) with 256.
  split.
  - apply Z.div_pos; lia.
  - apply Z.div_lt_upper_bound; lia.
Qed.

(** Reading the two bytes of a word back, most significant first. *)
Lemma int_from_word_bytes (w : Z) : int_from_bytes_big (word_bytes w) = w.
Proof.
  unfold int_from_bytes_big, word_bytes. cbn [fold_left].
  rewrite Z.shiftr_div_pow2 by lia.
  change 0xFF with (Z.ones 8). rewrite Z.land_ones by lia.
  change (2 ^ 8) with 256.
  pose proof (Z.div_mod w 256). lia.
Qed.

Lemma checksum_byte_word (w : Z) :
  0 <= w <= 65535 ->
  checksum_byte (word_bytes w)
  = crc_step (crc_step crc8_init (Z.shiftr w 8)) (Z.land w 0xFF).
Proof.
  intros Hw. unfold checksum_byte, word_bytes.
  rewrite crc8_fast_word.
  - reflexivity.
  - apply is_byte_shiftr_8; exact Hw.
  - apply is_byte_land_255.
Qed.

Lemma frame_of_words_bytes (t h : Z) :
  frame_of_words t h =
  [Z.shiftr t 8; Z.land t 0xFF; checksum_byte (word_bytes t);
   Z.shiftr h 8; Z.land h 0xFF; checksum_byte (word_bytes h)].
Proof. reflexivity. Qed.

Lemma parse_sht4x_valid_frame (b0 b1 b2 b3 b4 b5 : Z) :
  is_byte b0 -> is_byte b1 -> is_byte b3 -> is_byte b4 ->
  checksums_valid [b0; b1; b2; b3; b4; b5] ->
  parse_sht4x [b0; b1; b2; b3; b4; b5]
  = Ok (temperature_of_raw (b0 * 256 + b1), humidity_of_raw (b3 * 256 + b4)).
Proof.
  intros H0 H1 H3 H4 Hv.
  apply checksums_valid_frame in Hv; try assumption.
  destruct Hv as [Ht Hh].
  rewrite parse_sht4x_frame by assumption. cbv zeta.
  rewrite Ht, Hh, !Z.eqb_refl. reflexivity.
Qed.

(** C2: for all 16-bit raw words [t] and [h], the frame that carries them
    with valid checksums decodes to exactly
    [-45 + 175 * (t / 65535)] and [100 * (h / 65535)] (binary64
    arithmetic, the words read big-endian and unsigned, nothing rounded
    or clamped afterwards); so does every six-byte frame with valid
    checksums, for the words its bytes spell. Raw humidity 0x0000 gives
    0.0 and 0xFFFF gives 100.0; raw temperature 0x6666 gives a value
    within 0.01 of 25.0. *)
Theorem parse_sht4x_transfer_functions (t h : Z) :
  0 <= t <= 65535 -> 0 <= h <= 65535 ->
  checksums_valid (frame_of_words t h) /\
  int_from_bytes_big (slice (frame_of_words t h) 0 2) = t /\
  int_from_bytes_big (slice (frame_of_words t h) 3 5) = h /\
  parse_sht4x (frame_of_words t h)
  = Ok ((-45 + 175 * (float_of_int t / 65535))%float,
        (100 * (float_of_int h / 65535))%float) /\
  (forall b0 b1 b2 b3 b4 b5,
     is_bytes [b0; b1; b2; b3; b4; b5] ->
     checksums_valid [b0; b1; b2; b3; b4; b5] ->
     parse_sht4x [b0; b1; b2; b3; b4; b5]
     = Ok ((-45 + 175 * (float_of_int (b0 * 256 + b1) / 65535))%float,
           (100 * (float_of_int (b3 * 256 + b4) / 65535))%float)) /\
  humidity_of_raw 0x0000 = 0%float /\
  humidity_of_raw 0xFFFF = 100%float /\
  (abs (temperature_of_raw 0x6666 - 25) <? 1 / 100)%float = true.
Proof.
  intros Ht Hh.
  pose proof (is_byte_shiftr_8 t Ht) as Ht0.
  pose proof (is_byte_land_255 t) as Ht1.
  pose proof (is_byte_shiftr_8 h Hh) as Hh0.
  pose proof (is_byte_land_255 h) as Hh1.
  assert (Hvalid : checksums_valid (frame_of_words t h)).
  { rewrite frame_of_words_bytes.
    apply checksums_valid_frame; try assumption.
    rewrite !checksum_byte_word by assumption. split; reflexivity. }
  split; [exact Hvalid |].
  split; [apply (int_from_word_bytes t) |].
  split; [apply (int_from_word_bytes h) |].
  split.
  { rewrite frame_of_words_bytes in Hvalid |- *.
    rewrite parse_sht4x_valid_frame by assumption.
    pose proof (int_from_word_bytes t) as Et.
    pose proof (int_from_word_bytes h) as Eh.
    unfold int_from_bytes_big, word_bytes in Et, Eh. cbn [fold_left] in Et, Eh.
    replace (Z.shiftr t 8 * 256 + Z.land t 0xFF) with t by lia.
    replace (Z.shiftr h 8 * 256 + Z.land h 0xFF) with h by lia.
    reflexivity. }
  split.
  { intros b0 b1 b2 b3 b4 b5 Hwf Hv.
    unfold is_bytes in Hwf.
    repeat match goal with
           | H : Forall _ (_ :: _) |- _ => inversion H; clear H; subst
           end.
    rewrite parse_sht4x_valid_frame by assumption. reflexivity. }
  split; [vm_compute; reflexivity |].
  split; vm_compute; reflexivity.
Qed.

Lemma parse_sht4x_transfer_functions_witness :
  parse_sht4x (frame_of_words 0x6666 0xFFFF)
  = Ok ((-45 + 175 * (float_of_int 0x6666 / 65535))%float,
        (100 * (float_of_int 0xFFFF / 65535))%float).
Proof.
  assert (Ht : 0 <= 0x6666 <= 65535) by lia.
  assert (Hh : 0 <= 0xFFFF <= 65535) by lia.
  exact (proj1 (proj2 (proj2 (proj2
           (parse_sht4x_transfer_functions 0x6666 0xFFFF Ht Hh))))).
Defined.

(* ================================================================= *)
(** ** Linearity of the CRC, and single-bit errors *)

Ltac bitwise :=
  apply Z.bits_inj'; intros ?n _;
  rewrite ?Z.lxor_spec, ?Z.land_spec, ?Z.bits_0;
  repeat match goal with
         | |- context [Z.testbit ?x ?n] => destruct (Z.testbit x n)
         end;
  reflexivity.

Lemma lxor_swap_inner (a b c d : Z) :
  Z.lxor (Z.lxor a b) (Z.lxor c d) = Z.lxor (Z.lxor a c) (Z.lxor b d).
Proof. bitwise. Qed.

Lemma lxor_cancel_poly (a b p : Z) :
  Z.lxor (Z.lxor a p) (Z.lxor b p) = Z.lxor a b.
Proof. bitwise. Qed.

Lemma lxor_poly_left (a b p : Z) :
  Z.lxor (Z.lxor a p) b = Z.lxor (Z.lxor a b) p.
Proof. bitwise. Qed.

Lemma lxor_poly_right (a b p : Z) :
  Z.lxor a (Z.lxor b p) = Z.lxor (Z.lxor a b) p.
Proof. bitwise. Qed.

(** One round is linear over XOR, whatever the polynomial. *)
Lemma crc_round_lxor (poly a b : Z) :
  crc_round poly (Z.lxor a b) = Z.lxor (crc_round poly a) (crc_round poly b).
Proof.
  unfold crc_round. rewrite !high_bit_test, Z.lxor_spec.
  rewrite Z.shiftl_lxor, land_lxor_distr.
  destruct (Z.testbit a 7), (Z.testbit b 7); cbn [xorb].
  - symmetry. apply lxor_cancel_poly.
  - symmetry. apply lxor_poly_left.
  - symmetry. apply lxor_poly_right.
  - reflexivity.
Qed.

Lemma iter_crc_round_lxor (poly : Z) (n : nat) (a b : Z) :
  Nat.iter n (crc_round poly) (Z.lxor a b)
  = Z.lxor (Nat.iter n (crc_round poly) a) (Nat.iter n (crc_round poly) b).
Proof.
  induction n as [| n IH]; simpl.
  - reflexivity.
  - rewrite IH. apply crc_round_lxor.
Qed.

Lemma crc_of_byte_lxor (poly a b : Z) :
  crc_of_byte poly (Z.lxor a b)
  = Z.lxor (crc_of_byte poly a) (crc_of_byte poly b).
Proof. rewrite !crc_of_byte_iter. apply iter_crc_round_lxor. Qed.

(** A changed second byte changes the checksum by the table entry of the
    change; a changed first byte, by that entry looked up once more. *)
Lemma crc_step_flip_second (crc b e : Z) :
  crc_step crc (Z.lxor b e) = Z.lxor (crc_step crc b) (crc_of_byte 0x31 e).
Proof.
  unfold crc_step. rewrite <- Z.lxor_assoc. apply crc_of_byte_lxor.
Qed.

Lemma crc_step_flip_first (crc a b e : Z) :
  crc_step (crc_step crc (Z.lxor a e)) b
  = Z.lxor (crc_step (crc_step crc a) b)
           (crc_of_byte 0x31 (crc_of_byte 0x31 e)).
Proof.
  rewrite crc_step_flip_second. unfold crc_step at 1.
  rewrite lxor_poly_left. apply crc_of_byte_lxor.
Qed.

Lemma lxor_cancel_outer (x d : Z) : Z.lxor (Z.lxor x d) x = d.
Proof. bitwise. Qed.

Lemma lxor_nonzero_differs (x d : Z) : d <> 0 -> Z.lxor x d <> x.
Proof.
  intros Hd Heq. apply Hd.
  rewrite <- (lxor_cancel_outer x d), Heq.
  apply Z.lxor_nilpotent.
Qed.

(** The eight single-bit masks are bytes, and neither their table entry
    nor the entry of that entry is zero. *)
Lemma single_bit_syndromes (k : Z) :
  0 <= k <= 7 ->
  is_byte (Z.shiftl 1 k) /\
  crc_of_byte 0x31 (Z.shiftl 1 k) <> 0 /\
  crc_of_byte 0x31 (crc_of_byte 0x31 (Z.shiftl 1 k)) <> 0.
Proof.
  intros Hk.
  assert (Hcases : k = 0 \/ k = 1 \/ k = 2 \/ k = 3 \/
                   k = 4 \/ k = 5 \/ k = 6 \/ k = 7) by lia.
  repeat (destruct Hcases as [-> | Hcases]); try subst k;
    (split; [unfold is_byte; cbn; lia |]);
    split; vm_compute; intros Hz; discriminate Hz.
Qed.

Section BitFlips.

Variables b0 b1 b2 b3 b4 b5 e : Z.
Hypothesis (H0 : is_byte b0) (H1 : is_byte b1) (H3 : is_byte b3) (H4 : is_byte b4).
Hypothesis He : is_byte e.
Hypothesis Hvalid : checksums_valid [b0; b1; b2; b3; b4; b5].

Let T (x : Z) : Z := crc_of_byte 0x31 x.

Lemma flip_byte0 :
  T (T e) <> 0 ->
  parse_sht4x [Z.lxor b0 e; b1; b2; b3; b4; b5]
  = Raise (RuntimeError (temperature_crc_fail (Z.lxor b2 (T (T e))) b2)).
Proof.
  intros Hs. apply checksums_valid_frame in Hvalid; try assumption.
  destruct Hvalid as [Ht _].
  rewrite parse_sht4x_frame by (try apply is_byte_lxor; assumption).
  cbv zeta. rewrite crc_step_flip_first, Ht. fold (T e). fold (T (T e)).
  destruct (Z.eqb_spec (Z.lxor b2 (T (T e))) b2) as [Heq | _].
  - exfalso. exact (lxor_nonzero_differs _ _ Hs Heq).
  - reflexivity.
Qed.

Lemma flip_byte1 :
  T e <> 0 ->
  parse_sht4x [b0; Z.lxor b1 e; b2; b3; b4; b5]
  = Raise (RuntimeError (temperature_crc_fail (Z.lxor b2 (T e)) b2)).
Proof.
  intros Hs. apply checksums_valid_frame in Hvalid; try assumption.
  destruct Hvalid as [Ht _].
  rewrite parse_sht4x_frame by (try apply is_byte_lxor; assumption).
  cbv zeta. rewrite crc_step_flip_second, Ht. fold (T e).
  destruct (Z.eqb_spec (Z.lxor b2 (T e)) b2) as [Heq | _].
  - exfalso. exact (lxor_nonzero_differs _ _ Hs Heq).
  - reflexivity.
Qed.

Lemma flip_byte3 :
  T (T e) <> 0 ->
  parse_sht4x [b0; b1; b2; Z.lxor b3 e; b4; b5]
  = Raise (RuntimeError (humidity_crc_fail (Z.lxor b5 (T (T e))) b5)).
Proof.
  intros Hs. apply checksums_valid_frame in Hvalid; try assumption.
  destruct Hvalid as [Ht Hh].
  rewrite parse_sht4x_frame by (try apply is_byte_lxor; assumption).
  cbv zeta. rewrite Ht, Z.eqb_refl. cbn [negb].
  rewrite crc_step_flip_first, Hh. fold (T e). fold (T (T e)).
  destruct (Z.eqb_spec (Z.lxor b5 (T (T e))) b5) as [Heq | _].
  - exfalso. exact (lxor_nonzero_differs _ _ Hs Heq).
  - reflexivity.
Qed.

Lemma flip_byte4 :
  T e <> 0 ->
  parse_sht4x [b0; b1; b2; b3; Z.lxor b4 e; b5]
  = Raise (RuntimeError (humidity_crc_fail (Z.lxor b5 (T e)) b5)).
Proof.
  intros Hs. apply checksums_valid_frame in Hvalid; try assumption.
  destruct Hvalid as [Ht Hh].
  rewrite parse_sht4x_frame by (try apply is_byte_lxor; assumption).
  cbv zeta. rewrite Ht, Z.eqb_refl. cbn [negb].
  rewrite crc_step_flip_second, Hh. fold (T e).
  destruct (Z.eqb_spec (Z.lxor b5 (T e)) b5) as [Heq | _].
  - exfalso. exact (lxor_nonzero_differs _ _ Hs Heq).
  - reflexivity.
Qed.

End BitFlips.

Lemma temperature_mismatch_intro (computed embedded : Z) (r : result (float * float)) :
  computed <> embedded ->
  r = Raise (RuntimeError (temperature_crc_fail computed embedded)) ->
  checksum_mismatch Temperature r /\ ~ checksum_mismatch Humidity r /\ is_ok r = false.
Proof.
  intros Hne Hr.
  assert (Hm : checksum_mismatch Temperature r) by (exists computed, embedded; auto).
  split; [exact Hm |]. split.
  - apply checksum_mismatch_exclusive. exact Hm.
  - rewrite Hr. reflexivity.
Qed.

Lemma humidity_mismatch_intro (computed embedded : Z) (r : result (float * float)) :
  computed <> embedded ->
  r = Raise (RuntimeError (humidity_crc_fail computed embedded)) ->
  checksum_mismatch Humidity r /\ ~ checksum_mismatch Temperature r /\ is_ok r = false.
Proof.
  intros Hne Hr.
  assert (Hm : checksum_mismatch Humidity r) by (exists computed, embedded; auto).
  split; [exact Hm |]. split.
  - intros Ht. exact (checksum_mismatch_exclusive r Ht Hm).
  - rewrite Hr. reflexivity.
Qed.

(** What a raised temperature failure is, spelled out: the text, the
    two values, and that no humidity text is the same. *)
Lemma temperature_failure_text (computed embedded : Z) (r : result (float * float)) :
  r = Raise (RuntimeError (temperature_crc_fail computed embedded)) ->
  r = Raise (RuntimeError ("SHT4x temperature CRC fail: "
                           ++ hex computed ++ " != " ++ hex embedded)) /\
  forall c d,
    r <> Raise (RuntimeError ("SHT4x humidity    CRC fail: "
                              ++ hex c ++ " != " ++ hex d)).
Proof.
  intros ->. split; [reflexivity |].
  intros c d Heq.
  apply (crc_fail_messages_differ computed embedded c d).
  unfold temperature_crc_fail, humidity_crc_fail in *. congruence.
Qed.

Lemma humidity_failure_text (computed embedded : Z) (r : result (float * float)) :
  r = Raise (RuntimeError (humidity_crc_fail computed embedded)) ->
  r = Raise (RuntimeError ("SHT4x humidity    CRC fail: "
                           ++ hex computed ++ " != " ++ hex embedded)) /\
  forall c d,
    r <> Raise (RuntimeError ("SHT4x temperature CRC fail: "
                              ++ hex c ++ " != " ++ hex d)).
Proof.
  intros ->. split; [reflexivity |].
  intros c d Heq.
  apply (crc_fail_messages_differ c d computed embedded).
  unfold temperature_crc_fail, humidity_crc_fail in *. congruence.
Qed.

(** C4: in a six-byte frame with two valid checksums, flipping any one
    bit of the temperature word (bytes 0-1) makes the decoder raise
    ["SHT4x temperature CRC fail: <computed> != <embedded>"], where
    <embedded> is byte 2 and <computed> is another byte; flipping any one
    bit of the humidity word (bytes 3-4) makes it raise
    ["SHT4x humidity    CRC fail: <computed> != <embedded>"], where
    <embedded> is byte 5. The checksum bytes being left as they were, it
    never returns a value for such a frame, and what it raises is never
    the text of the other field. *)
Theorem single_bit_flip_detected (buf : list Z) (pos : nat) (k : Z) :
  List.length buf = 6%nat -> is_bytes buf -> checksums_valid buf ->
  0 <= k <= 7 ->
  ((pos = 0 \/ pos = 1)%nat ->
     (exists computed embedded,
        getitem buf 2 = Ok embedded /\ is_byte computed /\ computed <> embedded /\
        parse_sht4x (flip_bit buf pos k)
        = Raise (RuntimeError ("SHT4x temperature CRC fail: "
                               ++ hex computed ++ " != " ++ hex embedded))) /\
     (forall c d,
        parse_sht4x (flip_bit buf pos k)
        <> Raise (RuntimeError ("SHT4x humidity    CRC fail: "
                                ++ hex c ++ " != " ++ hex d))) /\
     checksum_mismatch Temperature (parse_sht4x (flip_bit buf pos k)) /\
     ~ checksum_mismatch Humidity (parse_sht4x (flip_bit buf pos k)) /\
     is_ok (parse_sht4x (flip_bit buf pos k)) = false) /\
  ((pos = 3 \/ pos = 4)%nat ->
     (exists computed embedded,
        getitem buf 5 = Ok embedded /\ is_byte computed /\ computed <> embedded /\
        parse_sht4x (flip_bit buf pos k)
        = Raise (RuntimeError ("SHT4x humidity    CRC fail: "
                               ++ hex computed ++ " != " ++ hex embedded))) /\
     (forall c d,
        parse_sht4x (flip_bit buf pos k)
        <> Raise (RuntimeError ("SHT4x temperature CRC fail: "
                                ++ hex c ++ " != " ++ hex d))) /\
     checksum_mismatch Humidity (parse_sht4x (flip_bit buf pos k)) /\
     ~ checksum_mismatch Temperature (parse_sht4x (flip_bit buf pos k)) /\
     is_ok (parse_sht4x (flip_bit buf pos k)) = false).
Proof.
  intros Hlen Hwf Hv Hk.
  destruct (six_bytes buf Hlen Hwf)
    as (b0 & b1 & b2 & b3 & b4 & b5 & -> & H0 & H1 & H2 & H3 & H4 & H5).
  destruct (single_bit_syndromes k Hk) as (He & Hs1 & Hs2).
  assert (Hsyn1 : is_byte (crc_of_byte 0x31 (Z.shiftl 1 k)))
    by (apply is_byte_crc_of_byte; unfold is_byte; lia).
  assert (Hsyn2 : is_byte (crc_of_byte 0x31 (crc_of_byte 0x31 (Z.shiftl 1 k))))
    by (apply is_byte_crc_of_byte; unfold is_byte; lia).
  change (getitem [b0; b1; b2; b3; b4; b5] 2) with (Ok b2).
  change (getitem [b0; b1; b2; b3; b4; b5] 5) with (Ok b5).
  split.
  - intros [-> | ->]; cbn [flip_bit].
    + pose proof (flip_byte0 b0 b1 b2 b3 b4 b5 _ H0 H1 H3 H4 He Hv Hs2) as Hr.
      destruct (temperature_failure_text _ _ _ Hr) as [Htext Hother].
      split; [| split; [exact Hother |]].
      * exists (Z.lxor b2 (crc_of_byte 0x31 (crc_of_byte 0x31 (Z.shiftl 1 k)))), b2.
        split; [reflexivity |].
        split; [apply is_byte_lxor; assumption |].
        split; [apply lxor_nonzero_differs; exact Hs2 | exact Htext].
      * apply (temperature_mismatch_intro _ _ _
                 (lxor_nonzero_differs b2 _ Hs2) Hr).
    + pose proof (flip_byte1 b0 b1 b2 b3 b4 b5 _ H0 H1 H3 H4 He Hv Hs1) as Hr.
      destruct (temperature_failure_text _ _ _ Hr) as [Htext Hother].
      split; [| split; [exact Hother |]].
      * exists (Z.lxor b2 (crc_of_byte 0x31 (Z.shiftl 1 k))), b2.
        split; [reflexivity |].
        split; [apply is_byte_lxor; assumption |].
        split; [apply lxor_nonzero_differs; exact Hs1 | exact Htext].
      * apply (temperature_mismatch_intro _ _ _
                 (lxor_nonzero_differs b2 _ Hs1) Hr).
  - intros [-> | ->]; cbn [flip_bit].
    + pose proof (flip_byte3 b0 b1 b2 b3 b4 b5 _ H0 H1 H3 H4 He Hv Hs2) as Hr.
      destruct (humidity_failure_text _ _ _ Hr) as [Htext Hother].
      split; [| split; [exact Hother |]].
      * exists (Z.lxor b5 (crc_of_byte 0x31 (crc_of_byte 0x31 (Z.shiftl 1 k)))), b5.
        split; [reflexivity |].
        split; [apply is_byte_lxor; assumption |].
        split; [apply lxor_nonzero_differs; exact Hs2 | exact Htext].
      * apply (humidity_mismatch_intro _ _ _
                 (lxor_nonzero_differs b5 _ Hs2) Hr).
    + pose proof (flip_byte4 b0 b1 b2 b3 b4 b5 _ H0 H1 H3 H4 He Hv Hs1) as Hr.
      destruct (humidity_failure_text _ _ _ Hr) as [Htext Hother].
      split; [| split; [exact Hother |]].
      * exists (Z.lxor b5 (crc_of_byte 0x31 (Z.shiftl 1 k))), b5.
        split; [reflexivity |].
        split; [apply is_byte_lxor; assumption |].
        split; [apply lxor_nonzero_differs; exact Hs1 | exact Htext].
      * apply (humidity_mismatch_intro _ _ _
                 (lxor_nonzero_differs b5 _ Hs1) Hr).
Qed.

Lemma single_bit_flip_detected_witness :
  (exists computed embedded,
     getitem [0xBE; 0xEF; 0x92; 0xBE; 0xEF; 0x92] 2 = Ok embedded /\
     is_byte computed /\ computed <> embedded /\
     parse_sht4x (flip_bit [0xBE; 0xEF; 0x92; 0xBE; 0xEF; 0x92] 0 3)
     = Raise (RuntimeError ("SHT4x temperature CRC fail: "
                            ++ hex computed ++ " != " ++ hex embedded))) /\
  (exists computed embedded,
     getitem [0xBE; 0xEF; 0x92; 0xBE; 0xEF; 0x92] 5 = Ok embedded /\
     is_byte computed /\ computed <> embedded /\
     parse_sht4x (flip_bit [0xBE; 0xEF; 0x92; 0xBE; 0xEF; 0x92] 4 7)
     = Raise (RuntimeError ("SHT4x humidity    CRC fail: "
                            ++ hex computed ++ " != " ++ hex embedded))).
Proof.
  assert (Hlen : List.length [0xBE; 0xEF; 0x92; 0xBE; 0xEF; 0x92] = 6%nat)
    by reflexivity.
  assert (Hwf : is_bytes [0xBE; 0xEF; 0x92; 0xBE; 0xEF; 0x92])
    by (repeat (apply Forall_cons; [unfold is_byte; lia |]); apply Forall_nil).
  assert (Hv : checksums_valid [0xBE; 0xEF; 0x92; 0xBE; 0xEF; 0x92])
    by (split; exists 0x92; split; vm_compute; reflexivity).
  assert (H3 : 0 <= 3 <= 7) by lia.
  assert (H7 : 0 <= 7 <= 7) by lia.
  split.
  - exact (proj1 (proj1 (single_bit_flip_detected _ 0%nat 3 Hlen Hwf Hv H3)
                    (or_introl eq_refl))).
  - exact (proj1 (proj2 (single_bit_flip_detected _ 4%nat 7 Hlen Hwf Hv H7)
                    (or_intror eq_refl))).
Defined.

(* ================================================================= *)
(** ** The session over any transport *)

Section SessionProperties.

Context {conn bus : Type} `{Pigpio conn bus}.

Lemma perform_eq {A} (c : call) (op : bus -> result A * bus) (w : world bus) :
  perform c op w = (fst (op (bus_state w)), World (snd (op (bus_state w))) (calls w ++ [c])).
Proof. unfold perform. destruct (op (bus_state w)); reflexivity. Qed.



Lemma close_calls (self : SHT4x.t conn) (w : world bus) :
  calls (snd (SHT4x.close self w)) = calls w ++ [Call_i2c_close (SHT4x.handle self)].
Proof.
  unfold SHT4x.close, bind. rewrite perform_eq.
  destruct (i2c_close (SHT4x.pi self) (SHT4x.handle self) (bus_state w))
    as [[rc | e] b1]; reflexivity.
Qed.

(** C6: when the command write went through and the six-byte read gives
    back a count other than 6, [read()] raises
    ["Expected 6 bytes, got <count>"], whatever the data; [measurements]
    raises the same, so the data never reaches the decoder. *)
Theorem read_wrong_length (self : SHT4x.t conn) (w : world bus)
    (b1 b2 : bus) (count : Z) (d : data) :
  i2c_write_byte (SHT4x.pi self) (SHT4x.handle self) (SHT4x.mode self) (bus_state w)
  = (Ok 0, b1) ->
  i2c_read_device (SHT4x.pi self) (SHT4x.handle self) 6 b1 = (Ok (count, d), b2) ->
  count <> 6 ->
  let w' := World b2 (calls w ++ [Call_i2c_write_byte (SHT4x.handle self) (SHT4x.mode self);
                                  Call_sleep 10;
                                  Call_i2c_read_device (SHT4x.handle self) 6]) in
  SHT4x.read self w
  = (Raise (RuntimeError ("Expected 6 bytes, got " ++ str count)), w') /\
  SHT4x.measurements self w
  = (Raise (RuntimeError ("Expected 6 bytes, got " ++ str count)), w').
Proof.
  intros Hwrite Hread Hcount w'.
  assert (Hr : SHT4x.read self w
               = (Raise (RuntimeError ("Expected 6 bytes, got " ++ str count)), w')).
  { unfold SHT4x.read, bind. rewrite perform_eq, Hwrite. cbn [fst snd negb Z.eqb].
    unfold sleep_10ms. rewrite perform_eq. cbn [bus_state calls].
    rewrite Hread. cbn [fst snd].
    destruct (Z.eqb_spec count 6) as [Heq | _]; [contradiction |].
    cbn [negb raise]. unfold w'. rewrite <- !app_assoc. reflexivity. }
  split; [exact Hr |].
  unfold SHT4x.measurements, bind. rewrite Hr. reflexivity.
Qed.



(** C8, as the code has it: every [close()] asks the transport once to
    release the session's handle, closed before or not; two calls in a
    row are two releases of the same handle. Each call returns normally
    when the transport returns a status, whatever it is, and raises only
    what the transport raises; the driver adds no error of its own. *)
Theorem close_releases_every_time (self : SHT4x.t conn) (w : world bus) :
  let release := i2c_close (SHT4x.pi self) (SHT4x.handle self) in
  let returned (answer : result Z) : result unit :=
    match answer with
    | Ok _ => Ok tt
    | Raise e => Raise e
    end in
  let w1 := snd (SHT4x.close self w) in
  let w2 := snd (SHT4x.close self w1) in
  calls w1 = calls w ++ [Call_i2c_close (SHT4x.handle self)] /\
  calls w2 = calls w ++ [Call_i2c_close (SHT4x.handle self);
                         Call_i2c_close (SHT4x.handle self)] /\
  List.length (filter (is_close_of (SHT4x.handle self)) (calls w2))
  = (2 + List.length (filter (is_close_of (SHT4x.handle self)) (calls w)))%nat /\
  fst (SHT4x.close self w) = returned (fst (release (bus_state w))) /\
  bus_state w1 = snd (release (bus_state w)) /\
  fst (SHT4x.close self w1) = returned (fst (release (bus_state w1))) /\
  bus_state w2 = snd (release (bus_state w1)).
Proof.
  intros release returned w1 w2.
  assert (H1 : calls w1 = calls w ++ [Call_i2c_close (SHT4x.handle self)])
    by apply close_calls.
  assert (H2 : calls w2 = calls w ++ [Call_i2c_close (SHT4x.handle self);
                                      Call_i2c_close (SHT4x.handle self)]).
  { unfold w2. rewrite close_calls. fold w1. rewrite H1, <- app_assoc. reflexivity. }
  assert (Hresult : forall w0,
            fst (SHT4x.close self w0) = returned (fst (release (bus_state w0))) /\
            bus_state (snd (SHT4x.close self w0)) = snd (release (bus_state w0))).
  { intros w0. unfold SHT4x.close, bind, returned, release. rewrite perform_eq.
    destruct (i2c_close (SHT4x.pi self) (SHT4x.handle self) (bus_state w0))
      as [[rc | e] b0]; split; reflexivity. }
  split; [exact H1 |]. split; [exact H2 |].
  split.
  { rewrite H2, filter_app, length_app. cbn [filter is_close_of].
    rewrite Z.eqb_refl. cbn [List.length]. lia. }
  split; [exact (proj1 (Hresult w)) |].
  split; [exact (proj2 (Hresult w)) |].
  split; [exact (proj1 (Hresult w1)) | exact (proj2 (Hresult w1))].
Qed.

End SessionProperties.

(* ================================================================= *)
(** ** The session on the test bus *)

Lemma read_wrong_length_witness :
  SHT4x.read (SHT4x.Build tt 0 0xFD) (World (Fake.Bus [0] [1; 2; 3; 4; 5]) [])
  = (Raise (RuntimeError "Expected 6 bytes, got 5"),
     World (Fake.Bus [0] [1; 2; 3; 4; 5])
           [Call_i2c_write_byte 0 0xFD; Call_sleep 10; Call_i2c_read_device 0 6]).
Proof.
  assert (Hcount : 5 <> 6) by lia.
  exact (proj1 (read_wrong_length
                  (SHT4x.Build tt 0 0xFD)
                  (World (Fake.Bus [0] [1; 2; 3; 4; 5]) [])
                  (Fake.Bus [0] [1; 2; 3; 4; 5]) (Fake.Bus [0] [1; 2; 3; 4; 5])
                  5 (Bytes [1; 2; 3; 4; 5])
                  eq_refl eq_refl Hcount)).
Defined.



(** Against C8 as stated: on the test bus, closing a session twice asks
    twice for the release of handle 0; and when the handle number has
    been given out again in between, the second [close()] releases the
    other session's handle, whose next [read()] then fails. *)
Lemma close_twice_counterexample :
  let self := SHT4x.Build tt 0 SHT4x.NOHEAT_HIGHPRECISION in
  let w0 := Fake.start sample_frame in
  let w1 := snd ((s <- SHT4x.init None 1 0x44 None ;; SHT4x.close s)%io w0) in
  fst (SHT4x.init None 1 0x44 None w0) = Ok self /\
  releases 0 w1 = 1%nat /\
  SHT4x.close self w1
  = (Raise (PigpioError (-25)),
     World (Fake.Bus [] sample_frame)
           [Call_pi; Call_i2c_open 1 0x44; Call_i2c_close 0; Call_i2c_close 0]) /\
  releases 0 (snd (SHT4x.close self w1)) = 2%nat /\
  ~ fails_fast (SHT4x.close self) w1 /\
  calls (snd (SHT4x.close self w1)) <> calls w1 /\
  (other <- SHT4x.init None 1 0x44 None ;;
   SHT4x.close self ;;
   SHT4x.read other)%io w1
  = (Raise (PigpioError (-25)),
     World (Fake.Bus [] sample_frame)
           [Call_pi; Call_i2c_open 1 0x44; Call_i2c_close 0;
            Call_pi; Call_i2c_open 1 0x44; Call_i2c_close 0;
            Call_i2c_write_byte 0 0xFD]).
Proof.
  cbv zeta.
  split; [vm_compute; reflexivity |].
  split; [vm_compute; reflexivity |].
  split; [vm_compute; reflexivity |].
  split; [vm_compute; reflexivity |].
  split; [| split].
  - intros [_ Hcalls]. vm_compute in Hcalls. discriminate Hcalls.
  - intros Hcalls. vm_compute in Hcalls. discriminate Hcalls.
  - vm_compute. reflexivity.
Qed.

(* ================================================================= *)
(** * Further properties of the code *)

(* ================================================================= *)
(** ** The checksum: composition and indices out of range *)

(** X1: the checksum of a concatenation is the checksum of the second
    part started from the checksum of the first, errors included; data
    can be fed in pieces. *)
Theorem crc8_fast_app (a b : list Z) (init : Z) :
  crc8_fast (a ++ b) init = rbind (crc8_fast a init) (crc8_fast b).
Proof.
  revert init. induction a as [| byte rest IH]; intros init.
  - reflexivity.
  - cbn [app crc8_fast].
    destruct (getitem CRC_TABLE (Z.lxor init byte)) as [crc | e].
    + apply IH.
    + reflexivity.
Qed.

Lemma lxor_cancel_r (a b : Z) : Z.lxor (Z.lxor a b) b = a.
Proof. bitwise. Qed.

Lemma getitem_CRC_TABLE_above (i : Z) :
  256 <= i -> getitem CRC_TABLE i = Raise IndexError.
Proof.
  intros Hi. unfold getitem, CRC_TABLE.
  rewrite length_make_crc_table.
  destruct (Z.ltb_spec i 0); [lia |].
  destruct (Z.leb_spec 0 i); [| lia].
  destruct (Z.ltb_spec i (Z.of_nat 256)); [lia |].
  reflexivity.
Qed.

Lemma getitem_CRC_TABLE_negative (i : Z) :
  -256 <= i < 0 -> getitem CRC_TABLE i = getitem CRC_TABLE (i + 256).
Proof.
  intros Hi. unfold getitem, CRC_TABLE.
  rewrite length_make_crc_table.
  destruct (Z.ltb_spec i 0); [| lia].
  destruct (Z.ltb_spec (i + 256) 0); [lia |].
  reflexivity.
Qed.

(** X2: an initial value of 256 or more is not reduced: on data that
    starts with a byte the first table index is out of range and
    [crc8_fast] raises [IndexError]; on empty data the value is handed
    back as it is. *)
Theorem crc8_fast_init_too_large (byte : Z) (rest : list Z) (init : Z) :
  is_byte byte -> 256 <= init ->
  crc8_fast (byte :: rest) init = Raise IndexError /\
  crc8_fast [] init = Ok init.
Proof.
  intros Hb Hi. split; [| reflexivity].
  cbn [crc8_fast].
  rewrite getitem_CRC_TABLE_above; [reflexivity |].
  assert (Hnn : 0 <= Z.lxor init byte)
    by (apply Z.lxor_nonneg; unfold is_byte in Hb; lia).
  destruct (Z.lt_ge_cases (Z.lxor init byte) 256) as [Hlt | Hge]; [| exact Hge].
  exfalso.
  assert (Hx : is_byte (Z.lxor init byte)) by (unfold is_byte; lia).
  pose proof (is_byte_lxor _ _ Hx Hb) as Hback.
  rewrite lxor_cancel_r in Hback. unfold is_byte in Hback. lia.
Qed.

Lemma crc8_fast_init_too_large_witness :
  crc8_fast [0xBE; 0xEF] 0x1FF = Raise IndexError.
Proof.
  assert (Hb : is_byte 0xBE) by (unfold is_byte; lia).
  assert (Hi : 256 <= 0x1FF) by lia.
  exact (proj1 (crc8_fast_init_too_large 0xBE [0xEF] 0x1FF Hb Hi)).
Defined.

Lemma land_byte_high (x : Z) : is_byte x -> Z.land x (-256) = 0.
Proof.
  intros Hx.
  replace (Z.land x (-256)) with (Z.ldiff x (Z.ones 8))
    by (rewrite Z.ldiff_land; reflexivity).
  rewrite Z.ldiff_ones_r by lia.
  rewrite Z.shiftr_div_pow2 by lia. change (2 ^ 8) with 256.
  unfold is_byte in Hx. rewrite Z.div_small by lia. apply Z.shiftl_0_l.
Qed.

Lemma lxor_negative_init (init byte : Z) :
  -256 <= init < 0 -> is_byte byte ->
  Z.lxor init byte = Z.lxor (init + 256) byte - 256.
Proof.
  intros Hi Hb.
  assert (Hi' : is_byte (init + 256)) by (unfold is_byte; lia).
  assert (Hinit : init = Z.lxor (init + 256) (-256)).
  { rewrite <- Z.add_nocarry_lxor by (apply land_byte_high; exact Hi'). lia. }
  rewrite Hinit at 1.
  rewrite lxor_poly_left.
  rewrite <- Z.add_nocarry_lxor
    by (apply land_byte_high, is_byte_lxor; assumption).
  lia.
Qed.

(** X3: a negative initial value from -256 to -1 raises nothing: the
    first index counts from the end of the table, and on data that
    starts with a byte the result is that for the initial value plus
    256. *)
Theorem crc8_fast_negative_init (byte : Z) (rest : list Z) (init : Z) :
  is_byte byte -> -256 <= init < 0 ->
  crc8_fast (byte :: rest) init = crc8_fast (byte :: rest) (init + 256).
Proof.
  intros Hb Hi. cbn [crc8_fast].
  assert (Hx : is_byte (Z.lxor (init + 256) byte))
    by (apply is_byte_lxor; [unfold is_byte; lia | exact Hb]).
  rewrite getitem_CRC_TABLE_negative
    by (rewrite lxor_negative_init by assumption; unfold is_byte in Hx; lia).
  rewrite lxor_negative_init by assumption.
  replace (Z.lxor (init + 256) byte - 256 + 256)
    with (Z.lxor (init + 256) byte) by lia.
  reflexivity.
Qed.

Lemma crc8_fast_negative_init_witness :
  crc8_fast [0xBE; 0xEF] (-1) = crc8_fast [0xBE; 0xEF] 0xFF.
Proof.
  assert (Hb : is_byte 0xBE) by (unfold is_byte; lia).
  assert (Hi : -256 <= -1 < 0) by lia.
  exact (crc8_fast_negative_init 0xBE [0xEF] (-1) Hb Hi).
Defined.

(* ================================================================= *)
(** ** The table as a linear permutation of the bytes *)

Lemma crc_round_0 (poly : Z) : crc_round poly 0 = 0.
Proof. reflexivity. Qed.

Lemma crc_of_byte_0 (poly : Z) : crc_of_byte poly 0 = 0.
Proof. reflexivity. Qed.

(** X4: the table is linear over XOR, for every polynomial: the entry at
    [a XOR b] is the XOR of the entries at [a] and [b], and entry 0 is
    0. *)
Theorem crc_table_linear (poly a b : Z) :
  is_byte a -> is_byte b ->
  exists ta tb,
    getitem (make_crc_table poly) a = Ok ta /\
    getitem (make_crc_table poly) b = Ok tb /\
    getitem (make_crc_table poly) (Z.lxor a b) = Ok (Z.lxor ta tb) /\
    getitem (make_crc_table poly) 0 = Ok 0.
Proof.
  intros Ha Hb.
  exists (crc_of_byte poly a), (crc_of_byte poly b).
  rewrite !getitem_make_crc_table
    by (try apply is_byte_lxor; try assumption; unfold is_byte; lia).
  rewrite crc_of_byte_lxor, crc_of_byte_0. repeat split.
Qed.

Lemma crc_table_linear_witness :
  exists ta tb,
    getitem (make_crc_table 0x31) 0xBE = Ok ta /\
    getitem (make_crc_table 0x31) 0xEF = Ok tb /\
    getitem (make_crc_table 0x31) (Z.lxor 0xBE 0xEF) = Ok (Z.lxor ta tb) /\
    getitem (make_crc_table 0x31) 0 = Ok 0.
Proof.
  assert (Ha : is_byte 0xBE) by (unfold is_byte; lia).
  assert (Hb : is_byte 0xEF) by (unfold is_byte; lia).
  exact (crc_table_linear 0x31 0xBE 0xEF Ha Hb).
Defined.

Lemma testbit_7_byte (a : Z) : is_byte a -> Z.testbit a 7 = (128 <=? a).
Proof.
  intros Ha. unfold is_byte in Ha.
  rewrite Z.testbit_odd, Z.shiftr_div_pow2 by lia. change (2 ^ 7) with 128.
  destruct (Z.leb_spec 128 a) as [Hhi | Hlo].
  - replace (a / 128) with 1; [reflexivity |].
    apply (Z.div_unique a 128 1 (a - 128)); lia.
  - rewrite Z.div_small by lia. reflexivity.
Qed.

Lemma double_mod_256 (a : Z) : (2 * a) mod 256 = 2 * (a mod 128).
Proof. change 256 with (2 * 128). apply Z.mul_mod_distr_l; lia. Qed.

Lemma odd_spec_round (poly a : Z) :
  Z.odd poly = true -> Z.odd (spec_round poly a) = Z.testbit a 7.
Proof.
  intros Hp. unfold spec_round. rewrite double_mod_256.
  destruct (Z.testbit a 7).
  - rewrite <- Z.bit0_odd, Z.lxor_spec, !Z.bit0_odd, Hp, Z.odd_mul.
    reflexivity.
  - rewrite Z.odd_mul. reflexivity.
Qed.

(** With an odd polynomial, one round loses nothing of a byte. *)
Lemma crc_round_injective (poly a b : Z) :
  Z.odd poly = true -> is_byte a -> is_byte b ->
  crc_round poly a = crc_round poly b -> a = b.
Proof.
  intros Hp Ha Hb Heq. rewrite !crc_round_spec in Heq.
  assert (Hbit : Z.testbit a 7 = Z.testbit b 7).
  { rewrite <- (odd_spec_round poly a Hp), <- (odd_spec_round poly b Hp), Heq.
    reflexivity. }
  unfold spec_round in Heq. rewrite <- Hbit, !double_mod_256 in Heq.
  assert (Hlow : a mod 128 = b mod 128).
  { destruct (Z.testbit a 7).
    - apply (f_equal (fun x => Z.lxor x poly)) in Heq.
      rewrite !lxor_cancel_r in Heq. lia.
    - lia. }
  rewrite !testbit_7_byte in Hbit by assumption.
  unfold is_byte in Ha, Hb.
  pose proof (Z.div_mod a 128) as Da. pose proof (Z.div_mod b 128) as Db.
  pose proof (Z.mod_pos_bound a 128) as Ma.
  pose proof (Z.mod_pos_bound b 128) as Mb.
  destruct (Z.leb_spec 128 a) as [Hahi | Halo];
    destruct (Z.leb_spec 128 b) as [Hbhi | Hblo]; try discriminate Hbit.
  - assert (a / 128 = 1) by (symmetry; apply (Z.div_unique a 128 1 (a - 128)); lia).
    assert (b / 128 = 1) by (symmetry; apply (Z.div_unique b 128 1 (b - 128)); lia).
    lia.
  - rewrite !Z.mod_small in Hlow by lia. exact Hlow.
Qed.

Lemma is_byte_iter_crc_round (poly : Z) (n : nat) (a : Z) :
  is_byte poly -> is_byte a -> is_byte (Nat.iter n (crc_round poly) a).
Proof.
  intros Hp Ha. induction n as [| n IH]; simpl.
  - exact Ha.
  - apply is_byte_crc_round. exact Hp.
Qed.

Lemma crc_of_byte_injective (poly a b : Z) :
  Z.odd poly = true -> is_byte poly -> is_byte a -> is_byte b ->
  crc_of_byte poly a = crc_of_byte poly b -> a = b.
Proof.
  intros Hodd Hp Ha Hb. rewrite !crc_of_byte_iter.
  generalize 8%nat. intros n. induction n as [| n IH]; simpl.
  - trivial.
  - intros Heq. apply IH.
    apply (crc_round_injective poly); try exact Heq; try exact Hodd;
      apply is_byte_iter_crc_round; assumption.
Qed.

Lemma NoDup_range (n : nat) : NoDup (range n).
Proof.
  unfold range. apply NoDup_map_NoDup_ForallPairs.
  - intros x y _ _ Hxy. apply Nat2Z.inj. exact Hxy.
  - apply seq_NoDup.
Qed.

Lemma In_range (n : nat) (x : Z) : In x (range n) <-> 0 <= x < Z.of_nat n.
Proof.
  unfold range. rewrite in_map_iff. split.
  - intros [k [<- Hk]]. apply in_seq in Hk. lia.
  - intros Hx. exists (Z.to_nat x). split; [lia |]. apply in_seq. lia.
Qed.

(** X5: with an odd 8-bit polynomial, the table is a permutation of the
    byte values: no value occurs twice, and every value from 0 to 255
    occurs; so it is for [CRC_TABLE]. *)
Theorem crc_table_permutation (poly : Z) :
  Z.odd poly = true -> is_byte poly ->
  NoDup (make_crc_table poly) /\
  (forall v, 0 <= v <= 255 -> In v (make_crc_table poly)) /\
  NoDup CRC_TABLE.
Proof.
  assert (Hnodup : forall p, Z.odd p = true -> is_byte p -> NoDup (make_crc_table p)).
  { intros p Hodd Hp. rewrite make_crc_table_map.
    apply NoDup_map_NoDup_ForallPairs; [| apply NoDup_range].
    intros a b Ha Hb Heq. apply In_range in Ha, Hb.
    apply (crc_of_byte_injective p); try assumption; unfold is_byte; lia. }
  intros Hodd Hp.
  split; [apply Hnodup; assumption |].
  split.
  - intros v Hv.
    assert (Hincl : incl (range 256) (make_crc_table poly)).
    { apply NoDup_length_incl.
      - apply Hnodup; assumption.
      - rewrite length_range, length_make_crc_table. lia.
      - intros x Hx. apply In_range.
        pose proof (is_bytes_make_crc_table poly Hp) as Hall.
        unfold is_bytes in Hall. rewrite Forall_forall in Hall.
        specialize (Hall x Hx). unfold is_byte in Hall. lia. }
    apply Hincl, In_range. lia.
  - apply Hnodup; [reflexivity | unfold is_byte; lia].
Qed.

Lemma crc_table_permutation_witness :
  In 0x92 (make_crc_table 0x31).
Proof.
  assert (Hodd : Z.odd 0x31 = true) by reflexivity.
  assert (Hp : is_byte 0x31) by (unfold is_byte; lia).
  assert (Hv : 0 <= 0x92 <= 255) by lia.
  exact (proj1 (proj2 (crc_table_permutation 0x31 Hodd Hp)) 0x92 Hv).
Defined.

(* ================================================================= *)
(** ** What the checksum detects *)

Lemma is_byte_49 : is_byte 0x31.
Proof. unfold is_byte. lia. Qed.

Lemma crc_entry_injective (a b : Z) :
  is_byte a -> is_byte b ->
  crc_of_byte 0x31 a = crc_of_byte 0x31 b -> a = b.
Proof. apply crc_of_byte_injective; [reflexivity | apply is_byte_49]. Qed.

Lemma crc_entry_nonzero (e : Z) :
  is_byte e -> e <> 0 -> crc_of_byte 0x31 e <> 0.
Proof.
  intros He Hne Hz. apply Hne.
  apply crc_entry_injective; [exact He | unfold is_byte; lia |].
  rewrite Hz. reflexivity.
Qed.

Lemma lxor_eq_0_iff (a b : Z) : Z.lxor a b = 0 <-> a = b.
Proof.
  split.
  - apply Z.lxor_eq.
  - intros ->. apply Z.lxor_nilpotent.
Qed.

Lemma lxor_same_iff (x d : Z) : Z.lxor x d = x <-> d = 0.
Proof.
  split.
  - intros Heq. rewrite <- (lxor_cancel_outer x d), Heq. apply Z.lxor_nilpotent.
  - intros ->. apply Z.lxor_0_r.
Qed.

(** X6: data followed by its own checksum has checksum 0, and only by
    its own: for bytes [data] and a byte [c], [crc8_fast(data + [c])] is
    0 exactly when [crc8_fast(data)] is [c]. *)
Theorem crc8_fast_residue (data : list Z) (c init : Z) :
  is_bytes data -> is_byte c -> is_byte init ->
  crc8_fast (data ++ [c]) init = Ok 0 <-> crc8_fast data init = Ok c.
Proof.
  intros Hd Hc Hi.
  assert (Hdc : is_bytes (data ++ [c])).
  { apply Forall_app. split; [exact Hd |].
    apply Forall_cons; [exact Hc | apply Forall_nil]. }
  rewrite !crc8_fast_fold by assumption.
  rewrite fold_left_app. cbn [fold_left].
  pose proof (is_byte_fold_crc_step data init Hi) as Hr.
  set (r := fold_left crc_step data init) in *.
  unfold crc_step. split.
  - intros Hz. f_equal. apply lxor_eq_0_iff.
    apply crc_entry_injective.
    + apply is_byte_lxor; assumption.
    + unfold is_byte; lia.
    + apply Ok_injective in Hz. rewrite Hz. reflexivity.
  - intros Heq. apply Ok_injective in Heq. rewrite Heq, Z.lxor_nilpotent. reflexivity.
Qed.

Lemma crc8_fast_residue_witness :
  crc8_fast ([0xBE; 0xEF] ++ [0x92]) 0xFF = Ok 0.
Proof.
  assert (Hd : is_bytes [0xBE; 0xEF])
    by (repeat (apply Forall_cons; [unfold is_byte; lia |]); apply Forall_nil).
  assert (Hc : is_byte 0x92) by (unfold is_byte; lia).
  assert (Hi : is_byte 0xFF) by (unfold is_byte; lia).
  assert (Hcrc : crc8_fast [0xBE; 0xEF] 0xFF = Ok 0x92) by (vm_compute; reflexivity).
  exact (proj2 (crc8_fast_residue [0xBE; 0xEF] 0x92 0xFF Hd Hc Hi) Hcrc).
Defined.

Lemma crc_word_error (b0 b1 e0 e1 : Z) :
  crc_step (crc_step crc8_init (Z.lxor b0 e0)) (Z.lxor b1 e1)
  = Z.lxor (crc_step (crc_step crc8_init b0) b1)
           (Z.lxor (crc_of_byte 0x31 (crc_of_byte 0x31 e0)) (crc_of_byte 0x31 e1)).
Proof.
  rewrite crc_step_flip_second, crc_step_flip_first.
  apply Z.lxor_assoc.
Qed.

(** X7: a word changed by the error bytes [e0], [e1] keeps its checksum
    exactly when [e1] is the table entry of [e0]; every other change of
    the word, and so every change confined to one of its bytes, changes
    the checksum. *)
Theorem crc8_word_undetected_errors (b0 b1 e0 e1 : Z) :
  is_byte b0 -> is_byte b1 -> is_byte e0 -> is_byte e1 ->
  (crc8_fast [Z.lxor b0 e0; Z.lxor b1 e1] crc8_init = crc8_fast [b0; b1] crc8_init
   <-> getitem CRC_TABLE e0 = Ok e1) /\
  (e0 <> 0 -> e1 = 0 ->
   crc8_fast [Z.lxor b0 e0; Z.lxor b1 e1] crc8_init <> crc8_fast [b0; b1] crc8_init) /\
  (e0 = 0 -> e1 <> 0 ->
   crc8_fast [Z.lxor b0 e0; Z.lxor b1 e1] crc8_init <> crc8_fast [b0; b1] crc8_init).
Proof.
  intros H0 H1 He0 He1.
  assert (Hiff : crc8_fast [Z.lxor b0 e0; Z.lxor b1 e1] crc8_init
                 = crc8_fast [b0; b1] crc8_init
                 <-> crc_of_byte 0x31 e0 = e1).
  { rewrite !crc8_fast_word by (try apply is_byte_lxor; assumption).
    rewrite crc_word_error. split.
    - intros Heq. apply Ok_injective in Heq.
      apply (proj1 (lxor_same_iff _ _)) in Heq.
      apply Z.lxor_eq in Heq.
      apply crc_entry_injective in Heq; try assumption.
      apply is_byte_crc_of_byte, is_byte_49.
    - intros <-. rewrite Z.lxor_nilpotent, Z.lxor_0_r. reflexivity. }
  split; [| split].
  - rewrite Hiff, getitem_CRC_TABLE by assumption.
    split; [intros ->; reflexivity | apply Ok_injective].
  - intros Hne -> Heq. apply Hiff in Heq.
    exact (crc_entry_nonzero e0 He0 Hne Heq).
  - intros -> Hne Heq. apply Hiff in Heq.
    rewrite crc_of_byte_0 in Heq. apply Hne. symmetry. exact Heq.
Qed.

Lemma crc8_word_undetected_errors_witness :
  crc8_fast [Z.lxor 0xBE 0x01; Z.lxor 0xEF 0x31] crc8_init
  = crc8_fast [0xBE; 0xEF] crc8_init.
Proof.
  assert (H0 : is_byte 0xBE) by (unfold is_byte; lia).
  assert (H1 : is_byte 0xEF) by (unfold is_byte; lia).
  assert (He0 : is_byte 0x01) by (unfold is_byte; lia).
  assert (He1 : is_byte 0x31) by (unfold is_byte; lia).
  assert (Hentry : getitem CRC_TABLE 0x01 = Ok 0x31) by (vm_compute; reflexivity).
  exact (proj2 (proj1 (crc8_word_undetected_errors 0xBE 0xEF 0x01 0x31 H0 H1 He0 He1))
           Hentry).
Defined.

(* ================================================================= *)
(** ** The decoder: corrupted, short and long buffers *)

Lemma lxor_self_target (b v : Z) : Z.lxor b (Z.lxor b v) = v.
Proof. bitwise. Qed.

Lemma lxor_nonzero_of_differ (b v : Z) : b <> v -> Z.lxor b v <> 0.
Proof. intros Hne Hz. apply Hne, Z.lxor_eq. exact Hz. Qed.

(** X8: in a six-byte frame with two valid checksums, replacing any one
    byte by a different byte value, a word byte or a checksum byte, makes
    the decoder raise the failure of the field the byte belongs to
    (positions 0-2 temperature, 3-5 humidity); it returns no value. *)
Theorem single_byte_corruption_detected (buf : list Z) (pos : nat) (v : Z) :
  List.length buf = 6%nat -> is_bytes buf -> checksums_valid buf ->
  (pos < 6)%nat -> is_byte v -> nth_error buf pos <> Some v ->
  checksum_mismatch (field_of_position pos) (parse_sht4x (set_byte buf pos v)) /\
  is_ok (parse_sht4x (set_byte buf pos v)) = false.
Proof.
  intros Hlen Hwf Hv Hpos Hbv Hne.
  destruct (six_bytes buf Hlen Hwf)
    as (b0 & b1 & b2 & b3 & b4 & b5 & -> & H0 & H1 & H2 & H3 & H4 & H5).
  pose proof Hv as Hsums.
  apply checksums_valid_frame in Hsums; try assumption.
  destruct Hsums as [Ht Hh].
  assert (Hword : forall b, is_byte b -> b <> v ->
            is_byte (Z.lxor b v) /\
            crc_of_byte 0x31 (Z.lxor b v) <> 0 /\
            crc_of_byte 0x31 (crc_of_byte 0x31 (Z.lxor b v)) <> 0).
  { intros b Hb Hbne.
    pose proof (is_byte_lxor _ _ Hb Hbv) as He.
    pose proof (crc_entry_nonzero _ He (lxor_nonzero_of_differ _ _ Hbne)) as Hs1.
    split; [exact He |]. split; [exact Hs1 |].
    apply crc_entry_nonzero; [apply is_byte_crc_of_byte, is_byte_49 | exact Hs1]. }
  destruct pos as [| [| [| [| [| [| pos]]]]]]; [| | | | | | lia];
    cbn [set_byte field_of_position Nat.ltb Nat.leb];
    cbn [nth_error] in Hne.
  - assert (Hb : b0 <> v) by congruence.
    destruct (Hword b0 H0 Hb) as (He & Hs1 & Hs2).
    rewrite <- (lxor_self_target b0 v) at 1 2.
    pose proof (flip_byte0 b0 b1 b2 b3 b4 b5 _ H0 H1 H3 H4 He Hv Hs2) as Hr.
    destruct (temperature_mismatch_intro _ _ _
                (lxor_nonzero_differs b2 _ Hs2) Hr) as (Hm & _ & Hok).
    split; assumption.
  - assert (Hb : b1 <> v) by congruence.
    destruct (Hword b1 H1 Hb) as (He & Hs1 & Hs2).
    rewrite <- (lxor_self_target b1 v) at 1 2.
    pose proof (flip_byte1 b0 b1 b2 b3 b4 b5 _ H0 H1 H3 H4 He Hv Hs1) as Hr.
    destruct (temperature_mismatch_intro _ _ _
                (lxor_nonzero_differs b2 _ Hs1) Hr) as (Hm & _ & Hok).
    split; assumption.
  - assert (Hb : b2 <> v) by congruence.
    assert (Hr : parse_sht4x [b0; b1; v; b3; b4; b5]
                 = Raise (RuntimeError (temperature_crc_fail b2 v))).
    { rewrite parse_sht4x_frame by assumption. cbv zeta. rewrite Ht.
      destruct (Z.eqb_spec b2 v); [contradiction | reflexivity]. }
    destruct (temperature_mismatch_intro _ _ _ Hb Hr) as (Hm & _ & Hok).
    split; assumption.
  - assert (Hb : b3 <> v) by congruence.
    destruct (Hword b3 H3 Hb) as (He & Hs1 & Hs2).
    rewrite <- (lxor_self_target b3 v) at 1 2.
    pose proof (flip_byte3 b0 b1 b2 b3 b4 b5 _ H0 H1 H3 H4 He Hv Hs2) as Hr.
    destruct (humidity_mismatch_intro _ _ _
                (lxor_nonzero_differs b5 _ Hs2) Hr) as (Hm & _ & Hok).
    split; assumption.
  - assert (Hb : b4 <> v) by congruence.
    destruct (Hword b4 H4 Hb) as (He & Hs1 & Hs2).
    rewrite <- (lxor_self_target b4 v) at 1 2.
    pose proof (flip_byte4 b0 b1 b2 b3 b4 b5 _ H0 H1 H3 H4 He Hv Hs1) as Hr.
    destruct (humidity_mismatch_intro _ _ _
                (lxor_nonzero_differs b5 _ Hs1) Hr) as (Hm & _ & Hok).
    split; assumption.
  - assert (Hb : b5 <> v) by congruence.
    assert (Hr : parse_sht4x [b0; b1; b2; b3; b4; v]
                 = Raise (RuntimeError (humidity_crc_fail b5 v))).
    { rewrite parse_sht4x_frame by assumption. cbv zeta.
      rewrite Ht, Z.eqb_refl, Hh. cbn [negb].
      destruct (Z.eqb_spec b5 v); [contradiction | reflexivity]. }
    destruct (humidity_mismatch_intro _ _ _ Hb Hr) as (Hm & _ & Hok).
    split; assumption.
Qed.

Lemma single_byte_corruption_detected_witness :
  checksum_mismatch Humidity (parse_sht4x (set_byte sample_frame 5 0x00)).
Proof.
  assert (Hlen : List.length sample_frame = 6%nat) by reflexivity.
  assert (Hwf : is_bytes sample_frame)
    by (repeat (apply Forall_cons; [unfold is_byte; lia |]); apply Forall_nil).
  assert (Hv : checksums_valid sample_frame)
    by (split; eexists; split; vm_compute; reflexivity).
  assert (Hpos : (5 < 6)%nat) by lia.
  assert (Hbv : is_byte 0x00) by (unfold is_byte; lia).
  assert (Hne : nth_error sample_frame 5 <> Some 0x00)
    by (cbn; intros Heq; discriminate Heq).
  exact (proj1 (single_byte_corruption_detected sample_frame 5 0x00
                  Hlen Hwf Hv Hpos Hbv Hne)).
Defined.

Lemma getitem_past_end {A} (l : list A) (i : Z) :
  Z.of_nat (List.length l) <= i -> getitem l i = Raise IndexError.
Proof.
  intros Hi. unfold getitem.
  destruct (Z.ltb_spec i 0); [lia |].
  destruct (Z.leb_spec 0 i); [| lia].
  destruct (Z.ltb_spec i (Z.of_nat (List.length l))); [lia |].
  reflexivity.
Qed.

Lemma getitem_raises_IndexError {A} (l : list A) (i : Z) (e : exn) :
  getitem l i = Raise e -> e = IndexError.
Proof.
  unfold getitem.
  destruct ((0 <=? (if i <? 0 then i + Z.of_nat (List.length l) else i))
            && ((if i <? 0 then i + Z.of_nat (List.length l) else i)
                <? Z.of_nat (List.length l))).
  - destruct (nth_error l _); intros Heq; inversion Heq; reflexivity.
  - intros Heq; inversion Heq; reflexivity.
Qed.

(** X9: a buffer of fewer than six elements is refused with
    [IndexError] when the checksum bytes are picked, before any checksum
    is computed; whatever the elements are. *)
Theorem parse_sht4x_short_buffer (buf : list Z) :
  (List.length buf < 6)%nat -> parse_sht4x buf = Raise IndexError.
Proof.
  intros Hlen. unfold parse_sht4x. cbv zeta.
  destruct (Z_lt_le_dec 2 (Z.of_nat (List.length buf))) as [Hlong | Hshort].
  - rewrite (getitem_past_end buf 5) by lia.
    destruct (getitem buf 2) as [t_crc | e] eqn:Hget; cbn [rbind].
    + reflexivity.
    + rewrite (getitem_raises_IndexError buf 2 e Hget). reflexivity.
  - rewrite (getitem_past_end buf 2) by lia. reflexivity.
Qed.

Lemma parse_sht4x_short_buffer_witness :
  parse_sht4x [0x66; 0x66; 0x93; 0xFF; 0xFF] = Raise IndexError.
Proof.
  apply (parse_sht4x_short_buffer [0x66; 0x66; 0x93; 0xFF; 0xFF]).
  cbn. lia.
Defined.

(** X10: only the first six elements of the buffer are looked at: a
    buffer that goes on after them decodes as its first six. *)
Theorem parse_sht4x_ignores_trailing (frame extra : list Z) :
  List.length frame = 6%nat ->
  parse_sht4x (frame ++ extra) = parse_sht4x frame.
Proof.
  intros Hlen.
  destruct frame as [| b0 [| b1 [| b2 [| b3 [| b4 [| b5 [| ? ?]]]]]]];
    try discriminate Hlen.
  unfold parse_sht4x. cbn [app]. cbv zeta.
  change (slice (b0 :: b1 :: b2 :: b3 :: b4 :: b5 :: extra) 0 2) with [b0; b1].
  change (slice (b0 :: b1 :: b2 :: b3 :: b4 :: b5 :: extra) 3 5) with [b3; b4].
  change (slice [b0; b1; b2; b3; b4; b5] 0 2) with [b0; b1].
  change (slice [b0; b1; b2; b3; b4; b5] 3 5) with [b3; b4].
  rewrite (getitem_in_range (b0 :: b1 :: b2 :: b3 :: b4 :: b5 :: extra) 2 b2)
    by (try lia; reflexivity).
  rewrite (getitem_in_range (b0 :: b1 :: b2 :: b3 :: b4 :: b5 :: extra) 5 b5)
    by (try lia; reflexivity).
  reflexivity.
Qed.

Lemma parse_sht4x_ignores_trailing_witness :
  parse_sht4x (sample_frame ++ [0x00; 0x01]) = parse_sht4x sample_frame.
Proof.
  apply (parse_sht4x_ignores_trailing sample_frame [0x00; 0x01]).
  reflexivity.
Defined.

(* ================================================================= *)
(** ** The transfer functions over all raw words *)

Lemma readings_checked :
  all_from (Z.to_nat 65536) 0 readings_in_range_and_rising = true.
Proof. vm_compute. reflexivity. Qed.

(** X11: for every 16-bit raw word the temperature computed is between
    -45 and 130 and the humidity between 0 and 100 (binary64 comparisons),
    and the next raw value gives strictly more of both. *)
Theorem transfer_functions_range (raw : Z) :
  0 <= raw <= 65535 ->
  (-45 <=? temperature_of_raw raw)%float = true /\
  (temperature_of_raw raw <=? 130)%float = true /\
  (0 <=? humidity_of_raw raw)%float = true /\
  (humidity_of_raw raw <=? 100)%float = true /\
  (temperature_of_raw raw <? temperature_of_raw (raw + 1))%float = true /\
  (humidity_of_raw raw <? humidity_of_raw (raw + 1))%float = true.
Proof.
  intros Hraw.
  pose proof (all_from_spec _ _ _ readings_checked raw) as Hcheck.
  rewrite Z2Nat.id in Hcheck by lia.
  specialize (Hcheck ltac:(lia)).
  unfold readings_in_range_and_rising in Hcheck.
  repeat (apply andb_true_iff in Hcheck; destruct Hcheck as [Hcheck ?]).
  repeat split; assumption.
Qed.

Lemma transfer_functions_range_witness :
  (temperature_of_raw 0xFFFF <=? 130)%float = true.
Proof.
  assert (Hraw : 0 <= 0xFFFF <= 65535) by lia.
  exact (proj1 (proj2 (transfer_functions_range 0xFFFF Hraw))).
Defined.

(* ================================================================= *)
(** ** The session: outcomes of each method *)

Section SessionOutcomes.

Context {conn bus : Type} `{Pigpio conn bus}.

Lemma read_after_write (self : SHT4x.t conn) (w : world bus) (b1 : bus) :
  i2c_write_byte (SHT4x.pi self) (SHT4x.handle self) (SHT4x.mode self) (bus_state w)
  = (Ok 0, b1) ->
  SHT4x.read self w
  = (let w1 := World b1 (calls w ++ [Call_i2c_write_byte (SHT4x.handle self) (SHT4x.mode self);
                                      Call_sleep 10;
                                      Call_i2c_read_device (SHT4x.handle self) 6]) in
     match i2c_read_device (SHT4x.pi self) (SHT4x.handle self) 6 b1 with
     | (Ok (count, d), b2) =>
         if negb (count =? 6)
         then (Raise (RuntimeError ("Expected 6 bytes, got " ++ str count)),
               World b2 (calls w1))
         else match d with
              | Str s => (encode_latin1 s, World b2 (calls w1))
              | Bytes b => (Ok b, World b2 (calls w1))
              end
     | (Raise e, b2) => (Raise e, World b2 (calls w1))
     end).
Proof.
  intros Hwrite. unfold SHT4x.read, bind.
  rewrite perform_eq, Hwrite. cbn [fst snd negb Z.eqb].
  unfold sleep_10ms. rewrite perform_eq. cbn [bus_state calls]. cbv zeta.
  rewrite <- !app_assoc. cbn [app].
  destruct (i2c_read_device (SHT4x.pi self) (SHT4x.handle self) 6 b1)
    as [[[count d] | e] b2]; cbn [fst snd]; [| reflexivity].
  destruct (negb (count =? 6)); [reflexivity |].
  destruct d; reflexivity.
Qed.

(** X12: when the transport answers the command write with a status
    other than 0, [read()] raises ["SHT4x measure cmd failed"] at once:
    no wait and no bus read follow; [measurements] raises the same. *)
Theorem read_command_rejected (self : SHT4x.t conn) (w : world bus)
    (rc : Z) (b1 : bus) :
  i2c_write_byte (SHT4x.pi self) (SHT4x.handle self) (SHT4x.mode self) (bus_state w)
  = (Ok rc, b1) ->
  rc <> 0 ->
  let w' := World b1 (calls w ++ [Call_i2c_write_byte (SHT4x.handle self)
                                                      (SHT4x.mode self)]) in
  SHT4x.read self w = (Raise (RuntimeError "SHT4x measure cmd failed"), w') /\
  SHT4x.measurements self w = (Raise (RuntimeError "SHT4x measure cmd failed"), w').
Proof.
  intros Hwrite Hrc w'.
  assert (Hr : SHT4x.read self w
               = (Raise (RuntimeError "SHT4x measure cmd failed"), w')).
  { unfold SHT4x.read, bind. rewrite perform_eq, Hwrite. cbn [fst snd].
    destruct (Z.eqb_spec rc 0); [contradiction | reflexivity]. }
  split; [exact Hr |].
  unfold SHT4x.measurements, bind. rewrite Hr. reflexivity.
Qed.

(** X13: [reset()] writes the one byte 0x94 on the session's handle and
    nothing else; it returns when the status is 0 and raises
    ["SHT4x soft reset failed"] for any other status. *)
Theorem reset_outcome (self : SHT4x.t conn) (w : world bus) (rc : Z) (b1 : bus) :
  i2c_write_byte (SHT4x.pi self) (SHT4x.handle self) 0x94 (bus_state w) = (Ok rc, b1) ->
  SHT4x.reset self w
  = (if rc =? 0 then Ok tt else Raise (RuntimeError "SHT4x soft reset failed"),
     World b1 (calls w ++ [Call_i2c_write_byte (SHT4x.handle self) 0x94])).
Proof.
  intros Hwrite. unfold SHT4x.reset, bind.
  rewrite perform_eq. change SHT4x.SOFT_RESET with 0x94.
  rewrite Hwrite. cbn [fst snd].
  destruct (rc =? 0); reflexivity.
Qed.

(** X14: with a [pi] passed in, [__init__] makes the one call
    [i2c_open(bus, address)]; a negative handle raises
    ["Cannot open I2C bus<bus>@0x<address>"], any other handle is stored
    with the [pi] and the mode. *)
Theorem init_outcome (p : conn) (bus_id address : Z) (mode_arg : option Z)
    (w : world bus) (h : Z) (b1 : bus) :
  i2c_open p bus_id address (bus_state w) = (Ok h, b1) ->
  SHT4x.init (Some p) bus_id address mode_arg w
  = (if h <? 0
     then Raise (RuntimeError ("Cannot open I2C bus" ++ str bus_id ++ "@0x"
                               ++ SHT4x.format_02X address))
     else Ok (SHT4x.Build p h (SHT4x.mode_or_default mode_arg)),
     World b1 (calls w ++ [Call_i2c_open bus_id address])).
Proof.
  intros Hopen. unfold SHT4x.init, bind, ret.
  rewrite perform_eq, Hopen. cbn [fst snd].
  destruct (h <? 0); reflexivity.
Qed.

(** X15: a mode argument of 0 counts as none given: the session stores
    0xFD for it, as it does for [None]; every other byte is stored as
    given. *)
Theorem init_mode_zero (pi_arg : option conn) (bus_id address : Z)
    (w : world bus) (s : SHT4x.t conn) (w' : world bus) (m : Z) :
  SHT4x.init pi_arg bus_id address (Some m) w = (Ok s, w') ->
  SHT4x.mode s = (if m =? 0 then 0xFD else m).
Proof.
  unfold SHT4x.init, bind.
  destruct (match pi_arg with
            | Some p => ret p
            | None => perform Call_pi pigpio_pi
            end w) as [[p | e] wa]; [| discriminate].
  rewrite perform_eq.
  destruct (i2c_open p bus_id address (bus_state wa)) as [[h | e] b];
    cbn [fst snd]; [| discriminate].
  destruct (h <? 0); cbn [raise ret]; [discriminate |].
  intros Heq. inversion Heq. reflexivity.
Qed.

(** X16: when the command write is accepted and the bus read gives back
    count 6, [read()] returns the data as they are when they are bytes,
    and their latin-1 encoding when they are a [str]: the code points,
    or [UnicodeEncodeError] when one of them is above 255. Three calls
    are made: the write, the wait, the read. *)
Theorem read_returns_data (self : SHT4x.t conn) (w : world bus)
    (b1 b2 : bus) (d : data) :
  i2c_write_byte (SHT4x.pi self) (SHT4x.handle self) (SHT4x.mode self) (bus_state w)
  = (Ok 0, b1) ->
  i2c_read_device (SHT4x.pi self) (SHT4x.handle self) 6 b1 = (Ok (6, d), b2) ->
  SHT4x.read self w
  = (match d with
     | Bytes b => Ok b
     | Str s => if forallb (fun c => c <? 256) s then Ok s else Raise UnicodeEncodeError
     end,
     World b2 (calls w ++ [Call_i2c_write_byte (SHT4x.handle self) (SHT4x.mode self);
                           Call_sleep 10;
                           Call_i2c_read_device (SHT4x.handle self) 6])).
Proof.
  intros Hwrite Hread.
  rewrite (read_after_write self w b1 Hwrite). cbv zeta.
  rewrite Hread. cbn [negb Z.eqb Pos.eqb calls].
  destruct d; reflexivity.
Qed.

(** X17: the whole measurement: when the command write is accepted and
    the sensor answers with the six bytes for raw words [t] and [h],
    [measurements] is the pair of the two transfer functions, after the
    write, the wait and the read. *)
Theorem measurements_of_sensor_frame (self : SHT4x.t conn) (w : world bus)
    (b1 b2 : bus) (t h : Z) :
  0 <= t <= 65535 -> 0 <= h <= 65535 ->
  i2c_write_byte (SHT4x.pi self) (SHT4x.handle self) (SHT4x.mode self) (bus_state w)
  = (Ok 0, b1) ->
  i2c_read_device (SHT4x.pi self) (SHT4x.handle self) 6 b1
  = (Ok (6, Bytes (frame_of_words t h)), b2) ->
  SHT4x.measurements self w
  = (Ok (temperature_of_raw t, humidity_of_raw h),
     World b2 (calls w ++ [Call_i2c_write_byte (SHT4x.handle self) (SHT4x.mode self);
                           Call_sleep 10;
                           Call_i2c_read_device (SHT4x.handle self) 6])).
Proof.
  intros Ht Hh Hwrite Hread.
  unfold SHT4x.measurements, bind.
  rewrite (read_after_write self w b1 Hwrite). cbv zeta.
  rewrite Hread. cbn [negb Z.eqb Pos.eqb calls lift].
  f_equal.
  pose proof (is_byte_shiftr_8 t Ht) as Ht0.
  pose proof (is_byte_land_255 t) as Ht1.
  pose proof (is_byte_shiftr_8 h Hh) as Hh0.
  pose proof (is_byte_land_255 h) as Hh1.
  rewrite frame_of_words_bytes.
  rewrite parse_sht4x_valid_frame; try assumption.
  - pose proof (int_from_word_bytes t) as Et.
    pose proof (int_from_word_bytes h) as Eh.
    unfold int_from_bytes_big, word_bytes in Et, Eh. cbn [fold_left] in Et, Eh.
    replace (Z.shiftr t 8 * 256 + Z.land t 0xFF) with t by lia.
    replace (Z.shiftr h 8 * 256 + Z.land h 0xFF) with h by lia.
    reflexivity.
  - apply checksums_valid_frame; try assumption.
    rewrite !checksum_byte_word by assumption. split; reflexivity.
Qed.

(** X18: [close()] does not look at what [i2c_close] returns: whatever
    the status, negative included, it returns normally after the one
    call; only an exception of the transport comes through. *)
Theorem close_ignores_status (self : SHT4x.t conn) (w : world bus) :
  SHT4x.close self w
  = (match fst (i2c_close (SHT4x.pi self) (SHT4x.handle self) (bus_state w)) with
     | Ok _ => Ok tt
     | Raise e => Raise e
     end,
     World (snd (i2c_close (SHT4x.pi self) (SHT4x.handle self) (bus_state w)))
           (calls w ++ [Call_i2c_close (SHT4x.handle self)])).
Proof.
  unfold SHT4x.close, bind. rewrite perform_eq.
  destruct (i2c_close (SHT4x.pi self) (SHT4x.handle self) (bus_state w))
    as [[rc | e] b1]; reflexivity.
Qed.

(** X19: [read()] never reads the bus without the command write and the
    10 ms wait before it, in this order; it makes either the write
    alone or the write, the wait and one read of 6 bytes, and it goes on
    to the wait and the read exactly when the write returned status 0. *)
Theorem read_call_order (self : SHT4x.t conn) (w : world bus) :
  let write := Call_i2c_write_byte (SHT4x.handle self) (SHT4x.mode self) in
  let answer := fst (i2c_write_byte (SHT4x.pi self) (SHT4x.handle self)
                                    (SHT4x.mode self) (bus_state w)) in
  calls (snd (SHT4x.read self w))
  = match answer with
    | Ok 0 => calls w ++ [write; Call_sleep 10;
                          Call_i2c_read_device (SHT4x.handle self) 6]
    | _ => calls w ++ [write]
    end.
Proof.
  cbv zeta.
  destruct (i2c_write_byte (SHT4x.pi self) (SHT4x.handle self) (SHT4x.mode self)
              (bus_state w)) as [[rc | e] b1] eqn:Hwrite; cbn [fst].
  - destruct (Z.eq_dec rc 0) as [-> | Hrc].
    + rewrite (read_after_write self w b1 Hwrite). cbv zeta.
      destruct (i2c_read_device (SHT4x.pi self) (SHT4x.handle self) 6 b1)
        as [[[count d] | e] b2]; [| reflexivity].
      destruct (negb (count =? 6)); [reflexivity |].
      destruct d; reflexivity.
    + unfold SHT4x.read, bind. rewrite perform_eq, Hwrite. cbn [fst snd].
      destruct (Z.eqb_spec rc 0); [contradiction |].
      cbn [negb raise snd calls]. destruct rc; try reflexivity. contradiction.
  - unfold SHT4x.read, bind. rewrite perform_eq, Hwrite. reflexivity.
Qed.

End SessionOutcomes.

(* ================================================================= *)
(** ** The outcomes on the test buses *)

Lemma read_command_rejected_witness :
  @SHT4x.read unit Fake.bus Quiet.pigpio (SHT4x.Build tt 7 0xFD) (Fake.start sample_frame)
  = (Raise (RuntimeError "SHT4x measure cmd failed"),
     World (Fake.Bus [] sample_frame) [Call_i2c_write_byte 7 0xFD]).
Proof.
  assert (Hrc : -25 <> 0) by lia.
  exact (proj1 (@read_command_rejected unit Fake.bus Quiet.pigpio
                  (SHT4x.Build tt 7 0xFD) (Fake.start sample_frame)
                  (-25) (Fake.Bus [] sample_frame) eq_refl Hrc)).
Defined.

Lemma reset_outcome_witness :
  SHT4x.reset (SHT4x.Build tt 0 0xFD) (World (Fake.Bus [0] sample_frame) [])
  = (Ok tt, World (Fake.Bus [0] sample_frame) [Call_i2c_write_byte 0 0x94]).
Proof.
  exact (reset_outcome (SHT4x.Build tt 0 0xFD) (World (Fake.Bus [0] sample_frame) [])
           0 (Fake.Bus [0] sample_frame) eq_refl).
Defined.

Lemma init_outcome_witness :
  @SHT4x.init unit Fake.bus Quiet.pigpio (Some tt) (-1) 0x44 None (Fake.start sample_frame)
  = (Raise (RuntimeError "Cannot open I2C bus-1@0x44"),
     World (Fake.Bus [] sample_frame) [Call_i2c_open (-1) 0x44]).
Proof.
  exact (@init_outcome unit Fake.bus Quiet.pigpio tt (-1) 0x44 None
           (Fake.start sample_frame) (-80) (Fake.Bus [] sample_frame) eq_refl).
Defined.

Lemma init_mode_zero_witness :
  SHT4x.mode (SHT4x.Build tt 0 0xFD) = 0xFD.
Proof.
  exact (init_mode_zero None 1 0x44 (Fake.start sample_frame)
           (SHT4x.Build tt 0 0xFD)
           (World (Fake.Bus [0] sample_frame) [Call_pi; Call_i2c_open 1 0x44])
           0 eq_refl).
Defined.

Lemma read_returns_data_witness :
  SHT4x.read (SHT4x.Build tt 0 0xFD) (World (Fake.Bus [0] sample_frame) [])
  = (Ok sample_frame,
     World (Fake.Bus [0] sample_frame)
           [Call_i2c_write_byte 0 0xFD; Call_sleep 10; Call_i2c_read_device 0 6]).
Proof.
  exact (read_returns_data (SHT4x.Build tt 0 0xFD)
           (World (Fake.Bus [0] sample_frame) [])
           (Fake.Bus [0] sample_frame) (Fake.Bus [0] sample_frame)
           (Bytes sample_frame) eq_refl eq_refl).
Defined.

Lemma measurements_of_sensor_frame_witness :
  SHT4x.measurements (SHT4x.Build tt 0 0xFD)
    (World (Fake.Bus [0] (frame_of_words 0x6666 0xFFFF)) [])
  = (Ok (temperature_of_raw 0x6666, humidity_of_raw 0xFFFF),
     World (Fake.Bus [0] (frame_of_words 0x6666 0xFFFF))
           [Call_i2c_write_byte 0 0xFD; Call_sleep 10; Call_i2c_read_device 0 6]).
Proof.
  assert (Ht : 0 <= 0x6666 <= 65535) by lia.
  assert (Hh : 0 <= 0xFFFF <= 65535) by lia.
  assert (Hread : i2c_read_device tt 0 6 (Fake.Bus [0] (frame_of_words 0x6666 0xFFFF))
                  = (Ok (6, Bytes (frame_of_words 0x6666 0xFFFF)),
                     Fake.Bus [0] (frame_of_words 0x6666 0xFFFF)))
    by (vm_compute; reflexivity).
  exact (measurements_of_sensor_frame (SHT4x.Build tt 0 0xFD)
           (World (Fake.Bus [0] (frame_of_words 0x6666 0xFFFF)) [])
           (Fake.Bus [0] (frame_of_words 0x6666 0xFFFF))
           (Fake.Bus [0] (frame_of_words 0x6666 0xFFFF))
           0x6666 0xFFFF Ht Hh eq_refl Hread).
Defined.

(* ================================================================= *)
(** ** The table for a polynomial that is not a byte *)

Lemma land_255_idem (x : Z) : Z.land (Z.land x 0xFF) 0xFF = Z.land x 0xFF.
Proof. rewrite <- Z.land_assoc. reflexivity. Qed.

Lemma crc_round_land_arg (poly c : Z) :
  crc_round poly (Z.land c 0xFF) = crc_round poly c.
Proof.
  unfold crc_round.
  replace (Z.land (Z.land c 0xFF) 0x80) with (Z.land c 0x80)
    by (rewrite <- Z.land_assoc; reflexivity).
  rewrite !shift_mask.
  change 0xFF with (Z.ones 8). rewrite Z.land_ones by lia.
  change (2 ^ 8) with 256. rewrite Z.mul_mod_idemp_r by lia.
  reflexivity.
Qed.

Lemma crc_round_land_poly (poly c : Z) :
  Z.land (crc_round poly c) 0xFF = crc_round (Z.land poly 0xFF) c.
Proof.
  unfold crc_round.
  destruct (negb (Z.land c 0x80 =? 0)).
  - rewrite land_lxor_distr, land_255_idem. reflexivity.
  - apply land_255_idem.
Qed.

Lemma iter_crc_round_land (poly : Z) (n : nat) (b : Z) :
  Z.land (Nat.iter n (crc_round poly) b) 0xFF
  = Nat.iter n (crc_round (Z.land poly 0xFF)) (Z.land b 0xFF).
Proof.
  induction n as [| n IH]; simpl.
  - reflexivity.
  - rewrite crc_round_land_poly, <- IH. symmetry. apply crc_round_land_arg.
Qed.

(** X20: [make_crc_table] takes any integer for the polynomial and does
    not reduce it: the table always has 256 entries, entry 1 is the
    polynomial itself, and the low 8 bits of the entries are the table of
    the polynomial's low 8 bits; so a polynomial outside 0..255 (0x131,
    with the x^8 term written out) gives a table whose entries are not
    all bytes. *)
Theorem make_crc_table_any_polynomial (poly : Z) :
  List.length (make_crc_table poly) = 256%nat /\
  getitem (make_crc_table poly) 1 = Ok poly /\
  map (fun entry => Z.land entry 0xFF) (make_crc_table poly)
  = make_crc_table (Z.land poly 0xFF) /\
  (is_bytes (make_crc_table poly) <-> is_byte poly).
Proof.
  assert (Hone : getitem (make_crc_table poly) 1 = Ok poly).
  { rewrite getitem_make_crc_table by (unfold is_byte; lia). reflexivity. }
  split; [apply length_make_crc_table |].
  split; [exact Hone |].
  split.
  - rewrite !make_crc_table_map, map_map. apply map_ext_in.
    intros b Hb. apply In_range in Hb.
    rewrite !crc_of_byte_iter, iter_crc_round_land.
    f_equal. apply is_byte_iff_land. unfold is_byte. lia.
  - split; [| apply is_bytes_make_crc_table].
    intros Hall. unfold is_bytes in Hall. rewrite Forall_forall in Hall.
    apply Hall.
    rewrite make_crc_table_map. apply in_map_iff.
    exists 1. split; [reflexivity | apply In_range; lia].
Qed.
